(** * alt-gan: the command handlers of [bot.py]

    A shallow embedding of the Discord bot in [src/bot.py]: the module
    globals ([refresh_cooldowns], [REFRESH_COOLDOWN], [status_messages],
    the two helper objects) become one record of state, each coroutine
    becomes a function in a small state-trace-exception monad, and every
    [await] on the Discord API becomes an entry of the trace.

    Conventions.
    - [time.time()] is a Python float; timestamps are modelled as exact
      rationals ([Q]) and the clock reading is an argument of the handler.
    - [interaction.user.id] is a Python int ([Z]).
    - The rendered texts carry emoji and formatted floats; a reply is an
      inductive value with one constructor per message of the source.
    - In [update_status], [refresh_version] and [get_account_cmd] an
      [await] that the source does not guard with [try] is taken to
      complete; the awaits inside a [try] may fail, and their outcome
      is an argument of the handler. The variants [update_status_awaits],
      [refresh_version_awaits] and [get_account_cmd_awaits] take the
      outcome of every call that can raise as an argument, guarded or
      not; what is said about exceptions is said about these.
    - A handler is run on its own: what other coroutines do while it is
      suspended at an [await] is not part of its result. *)

From Stdlib Require Import ZArith QArith Qround Lqa.
From stdpp Require Import base option list gmap strings sorting.

Local Open Scope Z_scope.

(** ** Numbers *)

(** [x < y] on timestamps, as a boolean. *)
Definition Qltb (x y : Q) : bool := negb (Qle_bool y x).

(** Nearest integer, ties to the even one (Python's [round]). *)
Definition round_half_even (q : Q) : Z :=
  let f := Qfloor q in
  match (q - inject_Z f ?= 1 # 2)%Q with
  | Lt => f
  | Gt => f + 1
  | Eq => if Z.even f then f else f + 1
  end.

(** [round(q, 1)]: one decimal. *)
Definition round1 (q : Q) : Q := (inject_Z (round_half_even (q * 10)) / 10)%Q.

(** Truth value of [s] where [s] is [None] or a string ([if acc:], [if ver:]). *)
Definition truthy (s : option string) : bool :=
  match s with
  | Some s => negb (String.eqb s "")
  | None => false
  end.

(** ** The helper objects

    [helpers/account_manager.py] and [helpers/roblox_version.py] are
    imported by bot.py (72-73) but are not part of the sources at hand. *)

Record AccountManager := mkAccountManager {
  accounts_file : list string;      (* the persisted pool *)
  cooldowns : gmap Z Q;             (* requester -> last successful checkout *)
  getacc_cooldown : Q               (* constructor argument, bot.py 77 *)
}.

Record VersionSnapshot := mkSnapshot {
  version : string;
  date : option string;
  fetchedAt : Q
}.

(** What bot.py reads of the version cache; its TTL is the helper's own
    (see [version_cache_ttl]). *)
Record RobloxVersion := mkRobloxVersion {
  snapshot : option VersionSnapshot
}.

(** What the remote source answers to one request. *)
Inductive net_outcome :=
| NetOk (ver : string) (dt : option string) (at_time : Q)
| NetFail.

(** The messages [get_account] pairs with its result. *)
Inductive am_msg :=
| MsgOk
| MsgCooldown (remaining : Q)
| MsgNoStock.

(** Modelled from the spec: [AccountManager.load_accounts], absent from
    src/; it reads the persisted pool (spec 3, AccountPool; spec 6,
    persisted state layout). *)
Definition load_accounts (am : AccountManager) : list string :=
  accounts_file am.

(** Modelled from the spec: [AccountManager.save_accounts], absent from
    src/; the pool is fully overwritten on every mutation (spec 6) and
    nothing else of the manager changes. *)
Definition save_accounts (accounts : list string) (am : AccountManager) : AccountManager :=
  mkAccountManager accounts (cooldowns am) (getacc_cooldown am).

(** Modelled from the spec: step (2)-(3) of [AccountManager.get_account]
    (spec 4.1, getAccount), absent from src/: refuse on an empty pool,
    otherwise pop the front element, persist the shortened pool, set the
    requester's entry to [now] and return the popped account. *)
Definition checkout (uid : Z) (now : Q) (am : AccountManager)
  : (option string * am_msg) * AccountManager :=
  match load_accounts am with
  | [] => ((None, MsgNoStock), am)
  | acc :: rest =>
      let am1 := save_accounts rest am in
      ((Some acc, MsgOk),
       mkAccountManager (accounts_file am1) (<[uid := now]> (cooldowns am1))
         (getacc_cooldown am1))
  end.

(** Modelled from the spec: [AccountManager.get_account], absent from
    src/ (spec 4.1, getAccount): step (1), if the requester has an entry
    and [now - lastCheckout < cooldownWindow], refuse with the remaining
    wait and no mutation; otherwise go on to the checkout. *)
Definition get_account (uid : Z) (now : Q) (am : AccountManager)
  : (option string * am_msg) * AccountManager :=
  match cooldowns am !! uid with
  | Some last =>
      if Qltb (now - last) (getacc_cooldown am)
      then ((None, MsgCooldown (getacc_cooldown am - (now - last))), am)
      else checkout uid now am
  | None => checkout uid now am
  end.

(** The [data] dictionary a fetch returns, read with [.get("version")]
    and [.get("date")]. *)
Definition version_data (rv : RobloxVersion) : option string * option string :=
  match snapshot rv with
  | Some s => (Some (version s), date s)
  | None => (None, None)
  end.

(** Modelled from the spec: [RobloxVersion.force_refresh], absent from
    src/ (spec 4.2, forceRefresh): one unconditional network call; the
    snapshot is replaced wholesale on success and left as it is on
    failure; the current snapshot is returned. *)
Definition force_refresh (net : net_outcome) (rv : RobloxVersion)
  : (option string * option string) * RobloxVersion :=
  match net with
  | NetOk ver dt at_time =>
      let rv' := mkRobloxVersion (Some (mkSnapshot ver dt at_time)) in
      (version_data rv', rv')
  | NetFail => (version_data rv, rv)
  end.

(** ** Effects of a handler *)

Inductive exn :=
| MissingPermissions (missing : list string)   (* app_commands.MissingPermissions *)
| IndexError                                   (* list index out of range *)
| DiscordError (status : Z).                   (* raised by a failed API call *)

(** Payloads of [interaction.response.send_message]. *)
Inductive reply :=
| AdminOnly                                     (* "Admin only!" *)
| CooldownLeft (wait : Q)                       (* f"Cooldown: {wait}s left" *)
| VersionRefreshed (ver : string) (dt : string) (* embed "Roblox Version (Refreshed)" *)
| CouldNotFetch                                 (* "Could not fetch Roblox version." *)
| SentViaDM                                     (* "Sent via DM!" *)
| EnableDMs                                     (* "Enable DMs!" *)
| Refusal (msg : am_msg).                       (* f"{msg}" of a refused checkout *)

(** What a handler does to the outside world, in order. *)
Inductive event :=
| Reply (r : reply)                  (* interaction.response.send_message *)
| DirectMessage (acc : string)       (* interaction.user.send *)
| NetworkFetch                       (* the request force_refresh performs *)
| Presence (name : string)           (* bot.change_presence *)
| LogRestored (uid : Z)              (* account_manager._log(...restored...) *)
| Warn.                              (* print("[WARN] ...") *)

Inductive result (A : Type) :=
| Returned (a : A)
| Raised (e : exn).
Arguments Returned {A} a.
Arguments Raised {A} e.

(** The module globals a handler reads and writes. *)
Record Bot := mkBot {
  account_manager : AccountManager;     (* bot.py 77 *)
  roblox_version : RobloxVersion;       (* bot.py 76 *)
  refresh_cooldowns : gmap Z Q;         (* bot.py 198 *)
  current_loop : nat                    (* update_status.current_loop *)
}.

Definition handler (A : Type) : Type := Bot → result A * Bot * list event.

Definition ret {A} (a : A) : handler A := λ st, (Returned a, st, []).

Definition raise {A} (e : exn) : handler A := λ st, (Raised e, st, []).

Definition bind {A B} (m : handler A) (k : A → handler B) : handler B :=
  λ st,
    match m st with
    | (Returned a, st1, tr1) =>
        match k a st1 with
        | (r, st2, tr2) => (r, st2, tr1 ++ tr2)
        end
    | (Raised e, st1, tr1) => (Raised e, st1, tr1)
    end.

(** [try: m except Exception as e: h e] *)
Definition try_except {A} (m : handler A) (h : exn → handler A) : handler A :=
  λ st,
    match m st with
    | (Returned a, st1, tr1) => (Returned a, st1, tr1)
    | (Raised e, st1, tr1) =>
        match h e st1 with
        | (r, st2, tr2) => (r, st2, tr1 ++ tr2)
        end
    end.

Definition emit (ev : event) : handler unit := λ st, (Returned tt, st, [ev]).

(** An awaited API call that may fail: the event is attempted either way. *)
Definition attempt (ev : event) (failure : option exn) : handler unit :=
  λ st,
    match failure with
    | None => (Returned tt, st, [ev])
    | Some e => (Raised e, st, [ev])
    end.

Definition gets {A} (f : Bot → A) : handler A := λ st, (Returned (f st), st, []).

Definition modify (f : Bot → Bot) : handler unit := λ st, (Returned tt, f st, []).

Notation "'let*' x ':=' m 'in' k" := (bind m (λ x, k))
  (at level 10, x name, m at level 100, k at level 200).
Notation "'run' m 'then' k" := (bind m (λ _, k))
  (at level 10, m at level 100, k at level 200).

Definition set_account_manager (am : AccountManager) (st : Bot) : Bot :=
  mkBot am (roblox_version st) (refresh_cooldowns st) (current_loop st).

Definition set_roblox_version (rv : RobloxVersion) (st : Bot) : Bot :=
  mkBot (account_manager st) rv (refresh_cooldowns st) (current_loop st).

Definition set_refresh_cooldowns (m : gmap Z Q) (st : Bot) : Bot :=
  mkBot (account_manager st) (roblox_version st) m (current_loop st).

Definition set_current_loop (n : nat) (st : Bot) : Bot :=
  mkBot (account_manager st) (roblox_version st) (refresh_cooldowns st) n.

(** A method call on [account_manager]. *)
Definition on_account_manager {A} (f : AccountManager → A * AccountManager) : handler A :=
  λ st,
    match f (account_manager st) with
    | (a, am) => (Returned a, set_account_manager am st, [])
    end.

(** [roblox_version.force_refresh()]: the helper's one network request
    shows in the trace. *)
Definition call_force_refresh (net : net_outcome) : handler (option string * option string) :=
  λ st,
    match force_refresh net (roblox_version st) with
    | (data, rv) => (Returned data, set_roblox_version rv st, [NetworkFetch])
    end.

(** ** Configuration and start-up (bot.py 11-29, 76-77, 198-199) *)

(** bot.py 28. [config] is [config.json], taken to hold a number under
    every key bot.py reads as one; a file with [null] or a text under
    such a key is outside this model. *)
Definition GETACC_COOLDOWN (config : gmap string Q) : Q :=
  default 300%Q (config !! "getAccCooldown").

(** bot.py 199. *)
Definition REFRESH_COOLDOWN : Q := 60%Q.

(** bot.py 76: [RobloxVersion(send_log_func=send_log)]; no snapshot yet
    (spec 3, VersionSnapshot: created empty at process start). *)
Definition RobloxVersion_init : RobloxVersion := mkRobloxVersion None.

(** bot.py 77: [AccountManager(getacc_cooldown=GETACC_COOLDOWN, ...)];
    [stored] is the pool found on disk. *)
Definition AccountManager_init (getacc_cooldown : Q) (stored : list string) : AccountManager :=
  mkAccountManager stored ∅ getacc_cooldown.

(** The globals after the module body has run. *)
Definition startup (config : gmap string Q) (stored : list string) : Bot :=
  mkBot (AccountManager_init (GETACC_COOLDOWN config) stored) RobloxVersion_init ∅ 0%nat.

(** The two timing parameters bot.py itself works with, as functions of
    the configuration. *)
Definition checkout_window (config : gmap string Q) : Q :=
  getacc_cooldown (account_manager (startup config [])).
Definition refresh_window (config : gmap string Q) : Q := REFRESH_COOLDOWN.

(** Modelled from the spec: the time-to-live of the version cache, kept
    by [helpers/roblox_version.py], absent from src/; it is read from the
    configuration and falls back to a default (spec 6, configuration
    surface). Neither the key nor the default is given: both are
    parameters. *)
Definition version_cache_ttl (ttl_key : string) (ttl_default : Q) (config : gmap string Q) : Q :=
  default ttl_default (config !! ttl_key).

(** A parameter is configurable when some key of the configuration sets it. *)
Definition configurable (param : gmap string Q → Q) : Prop :=
  ∃ key : string, ∀ (config : gmap string Q) (v : Q), param (<[key := v]> config) = v.

(** bot.py 160-162, the compensation for a failed delivery:
    [accounts = load_accounts(); accounts.insert(0, acc); save_accounts(accounts)]. *)
Definition restore_account (acc : string) (am : AccountManager) : AccountManager :=
  let accounts := load_accounts am in
  let accounts := acc :: accounts in
  save_accounts accounts am.

(** ** Logging and command analytics (bot.py 26-27, 36-69, 100-126, 258-281)

    [analytics_data] is a dictionary of dictionaries, mutated in place
    and written to [analytics.json] after each command. Its values are
    taken to be well-formed (a count is an integer, [last_used] a string
    or null), and [datetime.now().strftime(...)] is an argument. *)

(** A Python [dict] with string keys: its items in insertion order. *)
Definition dict (V : Type) : Type := list (string * V).

(** [d.get(k)], and [k in d] as [is_Some]. *)
Fixpoint dict_get {V} (k : string) (d : dict V) : option V :=
  match d with
  | [] => None
  | (k', v) :: d' => if String.eqb k k' then Some v else dict_get k d'
  end.

(** [d[k] = v]: a key that is there keeps its place, a new one goes last. *)
Fixpoint dict_set {V} (k : string) (v : V) (d : dict V) : dict V :=
  match d with
  | [] => [(k, v)]
  | (k', v') :: d' =>
      if String.eqb k k' then (k', v) :: d' else (k', v') :: dict_set k v d'
  end.

(** [{"count": ..., "last_used": ...}] *)
Record usage := mkUsage {
  count : Z;
  last_used : option string
}.

Record Analytics := mkAnalytics {
  analytics_data : dict (dict usage);            (* bot.py 69 *)
  analytics_file : option (dict (dict usage))    (* analytics.json, if it is there and parses *)
}.

(** bot.py 56-63: no file, or a file that does not parse, is the empty
    dictionary. *)
Definition load_analytics (file : option (dict (dict usage))) : dict (dict usage) :=
  match file with
  | Some data => data
  | None => []
  end.

(** bot.py 27 *)
Definition LOG_CHANNEL_ID (config : gmap string Q) : option Q := config !! "logChannelId".

(** Truth value of a number or [None] ([if LOG_CHANNEL_ID:]). *)
Definition truthy_num (n : option Q) : bool :=
  match n with
  | Some q => negb (Qeq_bool q 0)
  | None => false
  end.

Inductive color := Blue | Red | Green | Orange.

(** The texts handed to [send_log]. *)
Inductive log_msg :=
| UsedCommand (user cmd_name : string) (params : option string)   (* bot.py 120, 122 *)
| CommandFailed (cmd_name user err_text : string)                 (* bot.py 134 *)
| BotOnline.                                                      (* bot.py 98 *)

Inductive log_event :=
| Printed (message : log_msg)                  (* print(f"{timestamp} {message}") *)
| Embedded (c : color) (message : log_msg)     (* channel.send(embed=embed) *)
| Warned                                       (* print("[WARN] Could not log ...") *)
| ErrorReply (err_text : string).              (* send_message(f"{err_text}") *)

(** bot.py 36-51. [channel] tells whether [bot.get_channel] finds the
    channel, [sent] is the outcome of the awaited [channel.send]. *)
Definition send_log (config : gmap string Q) (channel : bool) (sent : option exn)
    (message : log_msg) (log_type : string) : result unit * list log_event :=
  if truthy_num (LOG_CHANNEL_ID config) then
    if channel then
      let c :=
        if String.eqb log_type "error" then Red
        else if String.eqb log_type "success" then Green
        else if String.eqb log_type "warning" then Orange
        else Blue in
      match sent with
      | None => (Returned tt, [Printed message; Embedded c message])
      | Some e => (Raised e, [Printed message; Embedded c message])
      end
    else (Returned tt, [Printed message])
  else (Returned tt, [Printed message]).

(** bot.py 108-114: the update of [analytics_data], in place. After
    line 109 the user's dictionary is there, after line 111 the entry. *)
Definition record_usage (user cmd_name stamp : string) (data : dict (dict usage))
  : dict (dict usage) :=
  let data :=
    match dict_get user data with
    | Some _ => data
    | None => dict_set user [] data
    end in
  let cmds := default [] (dict_get user data) in
  let cmds :=
    match dict_get cmd_name cmds with
    | Some _ => cmds
    | None => dict_set cmd_name (mkUsage 0 None) cmds
    end in
  let info := default (mkUsage 0 None) (dict_get cmd_name cmds) in
  let info := mkUsage (count info + 1) (last_used info) in
  let info := mkUsage (count info) (Some stamp) in
  dict_set user (dict_set cmd_name info cmds) data.

(** [not k.startswith('_')] *)
Definition shown_param (item : string * string) : bool :=
  negb (String.prefix "_" item.1).

(** bot.py 118: [", ".join(f"{k}={v}" for k, v in ... if not k.startswith('_'))];
    the values are given as their texts. *)
Definition render_params (namespace : list (string * string)) : string :=
  String.concat ", " (map (λ item, item.1 +:+ "=" +:+ item.2) (List.filter shown_param namespace)).

(** How [save_analytics] (bot.py 65-67) ends: the file is written, or
    an exception is raised and the file is left as the failed write
    left it ([open(..., "w")] truncates before anything is written). *)
Inductive save_outcome :=
| Saved
| SaveFailed (e : exn) (remains : option (dict (dict usage))).

(** bot.py 101-126. [saved] is the outcome of [save_analytics]; every
    exception ends in the warning of line 126. *)
Definition on_app_command_completion (config : gmap string Q) (channel : bool)
    (sent : option exn) (saved : save_outcome) (user cmd_name stamp : string)
    (namespace : list (string * string)) (st : Analytics) : Analytics * list log_event :=
  let data := record_usage user cmd_name stamp (analytics_data st) in
  match saved with
  | SaveFailed _ remains => (mkAnalytics data remains, [Warned])
  | Saved =>
      let st' := mkAnalytics data (Some data) in
      let params := render_params namespace in
      let log_msg :=
        if negb (String.eqb params "")
        then UsedCommand user cmd_name (Some params)
        else UsedCommand user cmd_name None in
      match send_log config channel sent log_msg "success" with
      | (Returned _, tr) => (st', tr)
      | (Raised _, tr) => (st', tr ++ [Warned])
      end
  end.

(** bot.py 129-139. [cmd_name] is [None] when the interaction has no
    command; a reply that fails is passed over. *)
Definition global_command_error (config : gmap string Q) (channel : bool)
    (sent : option exn) (user : string) (cmd_name : option string) (err_text : string)
  : result unit * list log_event :=
  let cmd_name := default "Unknown" cmd_name in
  match send_log config channel sent (CommandFailed cmd_name user err_text) "error" with
  | (Returned _, tr) => (Returned tt, tr ++ [ErrorReply err_text])
  | (Raised e, tr) => (Raised e, tr)
  end.

(** A leaderboard row: user, count, last use. *)
Definition board_row : Type := string * Z * option string.

(** bot.py 265-268 *)
Definition leaderboard_of (command_name : string) (data : dict (dict usage)) : list board_row :=
  omap (λ item : string * dict usage,
          (λ info, (item.1, count info, last_used info)) <$> dict_get command_name item.2)
       data.

(** Where [x] goes in a list already in descending order when [x] came
    before all of it: ahead of the first row that is not greater. *)
Fixpoint insert_desc (x : board_row) (l : list board_row) : list board_row :=
  match l with
  | [] => [x]
  | y :: l' => if (x.1.2 <? y.1.2)%Z then y :: insert_desc x l' else x :: y :: l'
  end.

(** bot.py 274: [leaderboard.sort(key=lambda x: x[1], reverse=True)].
    Python's sort is stable, with [reverse=True] too, so the result is
    the one descending arrangement that keeps equal counts in their
    order; this insertion builds it. *)
Definition sort_desc (l : list board_row) : list board_row := foldr insert_desc [] l.

Inductive board_reply :=
| BoardAdminOnly                                          (* "Admin only!" *)
| BoardNoUsage (command_name : string)                    (* "No usage data found for ..." *)
| BoardRows (command_name : string) (rows : list (nat * board_row)).

(** bot.py 259-281: the one message the handler sends;
    [enumerate(leaderboard[:10], start=1)]. *)
Definition leaderboard_cmd (is_admin : bool) (command_name : string)
    (data : dict (dict usage)) : board_reply :=
  if negb is_admin then BoardAdminOnly
  else
    let leaderboard := leaderboard_of command_name data in
    match leaderboard with
    | [] => BoardNoUsage command_name
    | _ :: _ =>
        let leaderboard := sort_desc leaderboard in
        BoardRows command_name (imap (λ i row, (S i, row)) (take 10 leaderboard))
    end.

(** Sum of the counts of one user, and of all users. *)
Definition user_uses (cmds : dict usage) : Z :=
  foldr (λ entry acc, count entry.2 + acc) 0 cmds.

Definition total_uses (data : dict (dict usage)) : Z :=
  foldr (λ item acc, user_uses item.2 + acc) 0 data.

(** [analytics_data[user][cmd_name]], if both keys are there. *)
Definition usage_of (user cmd_name : string) (data : dict (dict usage)) : option usage :=
  dict_get user data ≫= dict_get cmd_name.

(** Rows in descending order of count. *)
Definition descending (r1 r2 : board_row) : Prop := (r2.1.2 <= r1.1.2)%Z.

(** One completed command, as the loop sees it. *)
Record completion := mkCompletion {
  co_sent : option exn;
  co_saved : save_outcome;
  co_user : string;
  co_cmd : string;
  co_stamp : string;
  co_namespace : list (string * string)
}.

(** Completions handled one after the other. *)
Definition completions (config : gmap string Q) (channel : bool) (cs : list completion)
    (st : Analytics) : Analytics :=
  foldl (λ st c,
           (on_app_command_completion config channel (co_sent c) (co_saved c) (co_user c)
              (co_cmd c) (co_stamp c) (co_namespace c) st).1)
        st cs.

Section Handlers.

(** The two [status_text()] methods of the helpers, absent from src/. *)
Variable account_status_text : AccountManager → string.
Variable version_status_text : RobloxVersion → string.

(** ** Status rotation (bot.py 80-90) *)

Definition status_messages : list (Bot → string) :=
  [ (λ st, account_status_text (account_manager st));
    (λ _, "/getacc for free accounts");
    (λ _, "/stock to check balance");
    (λ st, version_status_text (roblox_version st)) ].

(** [update_status.current_loop % len(status_messages)] *)
Definition current_index (n : nat) : nat := (n mod length status_messages)%nat.

(** The body of [update_status]; indexing a list out of range raises. *)
Definition update_status : handler unit :=
  let* n := gets current_loop in
  match status_messages !! current_index n with
  | Some provider =>
      let* current_status := gets provider in
      emit (Presence current_status)
  | None => raise IndexError
  end.

(** One turn of [@tasks.loop]: the body, then the counter moves on. *)
Definition update_status_iteration : handler unit :=
  run update_status then
  modify (λ st, set_current_loop (S (current_loop st)) st).

(** ** /refreshversion (bot.py 201-231) *)

(** bot.py 214-231: the fetch and what is shown of it. The two entries
    of [status_messages] compared at line 225 are distinct closures, so
    they are equal exactly when the index is 3. [presence] is the outcome
    of the [change_presence] awaited inside the [try]. *)
Definition refresh_and_reply (net : net_outcome) (presence : option exn) : handler unit :=
  let* data := call_force_refresh net in
  let ver := data.1 in
  let dt := data.2 in
  if truthy ver then
    run emit (Reply (VersionRefreshed (default "" ver)
                       (if truthy dt then default "" dt else "Unknown"))) then
    try_except
      (let* n := gets current_loop in
       match status_messages !! current_index n, status_messages !! 3%nat with
       | Some _, Some _ =>
           if Nat.eqb (current_index n) 3 then
             let* new_status := gets (λ st, version_status_text (roblox_version st)) in
             attempt (Presence new_status) presence
           else ret tt
       | _, _ => raise IndexError
       end)
      (λ _, emit Warn)
  else emit (Reply CouldNotFetch).

Definition refresh_version (is_admin : bool) (uid : Z) (now : Q) (net : net_outcome)
    (presence : option exn) : handler unit :=
  if negb is_admin then
    run emit (Reply AdminOnly) then
    raise (MissingPermissions ["administrator"])
  else
    let* last := gets (λ st, default 0%Q (refresh_cooldowns st !! uid)) in
    if Qltb (now - last) REFRESH_COOLDOWN then
      let wait := round1 (REFRESH_COOLDOWN - (now - last)) in
      emit (Reply (CooldownLeft wait))
    else
      run modify (λ st, set_refresh_cooldowns (<[uid := now]> (refresh_cooldowns st)) st) then
      refresh_and_reply net presence.

(** ** /getacc (bot.py 152-167) *)

(** [dm] and [ack] are the outcomes of the two awaits inside the [try]:
    the direct message and the acknowledgement. *)
Definition get_account_cmd (uid : Z) (now : Q) (dm ack : option exn) : handler unit :=
  let* r := on_account_manager (get_account uid now) in
  let acc := r.1 in
  let msg := r.2 in
  if truthy acc then
    let a := default "" acc in
    try_except
      (run attempt (DirectMessage a) dm then
       attempt (Reply SentViaDM) ack)
      (λ e,
         run on_account_manager (λ am, (tt, restore_account a am)) then
         run emit (Reply EnableDMs) then
         run emit (LogRestored uid) then
         raise e)
  else emit (Reply (Refusal msg)).

(** ** Observations on a run *)

Definition outcome {A} (x : result A * Bot * list event) : result A := x.1.1.
Definition final {A} (x : result A * Bot * list event) : Bot := x.1.2.
Definition trace {A} (x : result A * Bot * list event) : list event := x.2.

Definition is_fetch (ev : event) : bool :=
  match ev with NetworkFetch => true | _ => false end.

(** Number of network requests in a trace. *)
Definition fetches (tr : list event) : nat := length (List.filter is_fetch tr).

Definition replied_version (ev : event) : option string :=
  match ev with Reply (VersionRefreshed ver _) => Some ver | _ => None end.

(** The versions a trace shows to the caller. *)
Definition versions_shown (tr : list event) : list string := omap replied_version tr.

(** The refresh cooldown check of bot.py 208-209. *)
Definition refresh_blocked (st : Bot) (uid : Z) (now : Q) : Prop :=
  (now - default 0 (refresh_cooldowns st !! uid) < REFRESH_COOLDOWN)%Q.

Definition refresh_permitted (st : Bot) (uid : Z) (now : Q) : Prop :=
  (REFRESH_COOLDOWN <= now - default 0 (refresh_cooldowns st !! uid))%Q.

(** Step (1) of getAccount lets the requester through. *)
Definition cooldown_satisfied (am : AccountManager) (uid : Z) (now : Q) : Prop :=
  ∀ last, cooldowns am !! uid = Some last → (getacc_cooldown am <= now - last)%Q.

(** A batch of [get_account] calls, served one after the other. Each
    call at bot.py 154 is synchronous (no [await] inside), so concurrent
    handlers reach the manager in some order, one at a time. *)
Fixpoint get_accounts (calls : list (Z * Q)) (am : AccountManager)
  : list (option string) * AccountManager :=
  match calls with
  | [] => ([], am)
  | (uid, now) :: calls' =>
      let '((acc, _), am1) := get_account uid now am in
      let '(accs, am2) := get_accounts calls' am1 in
      (acc :: accs, am2)
  end.

(** The exception the [try] block of [get_account_cmd] ends with, if any. *)
Definition first_failure (dm ack : option exn) : option exn :=
  match dm with
  | Some e => Some e
  | None => ack
  end.

(** The accounts a batch of calls handed out, in order. *)
Definition handed_out (served : list (option string)) : list string := omap id served.

(** What the trace of bot.py 215-231 may hold after the fetch: the
    embed or the failure text, a presence update and its warning. *)
Definition shows_result (ev : event) : bool :=
  match ev with
  | Reply (VersionRefreshed _ _) | Reply CouldNotFetch | Presence _ | Warn => true
  | _ => false
  end.

(** One /refreshversion interaction: who calls, when, and what the
    network and the presence update answer. *)
Record refresh_call := mkRefreshCall {
  rc_admin : bool;
  rc_uid : Z;
  rc_now : Q;
  rc_net : net_outcome;
  rc_presence : option exn
}.

(** Interactions handled one after the other: the trace of each and the
    state they leave. The handler reads and writes the globals
    (bot.py 206-214) before its first [await] on a path that changes
    them, so handlers that overlap act on the state in some order. *)
Fixpoint refresh_calls (cs : list refresh_call) (st : Bot) : list (list event) * Bot :=
  match cs with
  | [] => ([], st)
  | c :: cs' =>
      let r := refresh_version (rc_admin c) (rc_uid c) (rc_now c) (rc_net c) (rc_presence c) st in
      let '(trs, st') := refresh_calls cs' (final r) in
      (trace r :: trs, st')
  end.

Definition is_dm (ev : event) : bool :=
  match ev with DirectMessage _ => true | _ => false end.

Definition is_presence (ev : event) : bool :=
  match ev with Presence _ => true | _ => false end.

(** C7 in the spec's words: inside the window the caller is given the
    cached snapshot, so the version it holds is among those shown. *)
Definition cooldown_reply_returns_snapshot (st : Bot) (uid : Z) (now : Q) (net : net_outcome)
    (presence : option exn) : Prop :=
  refresh_blocked st uid now →
  ∀ s, snapshot (roblox_version st) = Some s →
    version s ∈ versions_shown (trace (refresh_version true uid now net presence st)).

(** ** Every call with its outcome

    The handlers once more, with the outcome of every call that can
    raise as an argument. The handlers above are these with every
    unguarded call completing. *)

(** How the compensation of bot.py 160-162 ends: its three lines
    complete, or one of the helper's calls raises and leaves [remains]
    as the persisted pool. *)
Inductive restore_outcome :=
| Restored
| RestoreRaised (e : exn) (remains : list string).

(** What the calls of /getacc answer. *)
Record getacc_outcomes := mkGetaccOutcomes {
  go_dm : option exn;             (* 157, interaction.user.send *)
  go_ack : option exn;            (* 158, "Sent via DM!" *)
  go_restore : restore_outcome;   (* 160-162 *)
  go_enable : option exn;         (* 163, "Enable DMs!" *)
  go_log : option exn;            (* 164, account_manager._log *)
  go_refusal : option exn         (* 167, the manager's message *)
}.

(** bot.py 160-162. *)
Definition restore_step (acc : string) (r : restore_outcome) : handler unit :=
  match r with
  | Restored => on_account_manager (λ am, (tt, restore_account acc am))
  | RestoreRaised e remains =>
      run on_account_manager (λ am, (tt, save_accounts remains am)) then
      raise e
  end.

(** bot.py 152-167. *)
Definition get_account_cmd_awaits (uid : Z) (now : Q) (o : getacc_outcomes) : handler unit :=
  let* r := on_account_manager (get_account uid now) in
  let acc := r.1 in
  let msg := r.2 in
  if truthy acc then
    let a := default "" acc in
    try_except
      (run attempt (DirectMessage a) (go_dm o) then
       attempt (Reply SentViaDM) (go_ack o))
      (λ e,
         run restore_step a (go_restore o) then
         run attempt (Reply EnableDMs) (go_enable o) then
         run attempt (LogRestored uid) (go_log o) then
         raise e)
  else attempt (Reply (Refusal msg)) (go_refusal o).

(** bot.py 214-231. Each path of /refreshversion awaits one
    [send_message]; [sent] is its outcome. *)
Definition refresh_and_reply_awaits (net : net_outcome) (sent presence : option exn)
  : handler unit :=
  let* data := call_force_refresh net in
  let ver := data.1 in
  let dt := data.2 in
  if truthy ver then
    run attempt (Reply (VersionRefreshed (default "" ver)
                          (if truthy dt then default "" dt else "Unknown"))) sent then
    try_except
      (let* n := gets current_loop in
       match status_messages !! current_index n, status_messages !! 3%nat with
       | Some _, Some _ =>
           if Nat.eqb (current_index n) 3 then
             let* new_status := gets (λ st, version_status_text (roblox_version st)) in
             attempt (Presence new_status) presence
           else ret tt
       | _, _ => raise IndexError
       end)
      (λ _, emit Warn)
  else attempt (Reply CouldNotFetch) sent.

(** bot.py 201-231. *)
Definition refresh_version_awaits (is_admin : bool) (uid : Z) (now : Q) (net : net_outcome)
    (sent presence : option exn) : handler unit :=
  if negb is_admin then
    run attempt (Reply AdminOnly) sent then
    raise (MissingPermissions ["administrator"])
  else
    let* last := gets (λ st, default 0%Q (refresh_cooldowns st !! uid)) in
    if Qltb (now - last) REFRESH_COOLDOWN then
      let wait := round1 (REFRESH_COOLDOWN - (now - last)) in
      attempt (Reply (CooldownLeft wait)) sent
    else
      run modify (λ st, set_refresh_cooldowns (<[uid := now]> (refresh_cooldowns st)) st) then
      refresh_and_reply_awaits net sent presence.

(** How one turn of the status loop goes: the text is rendered and the
    presence set, or rendering the text raises (a helper's
    [status_text()]), or [change_presence] raises. *)
Inductive turn_outcome :=
| TurnOk
| TextRaised (e : exn)
| PresenceRaised (e : exn).


(** bot.py 88-90. *)
Definition update_status_awaits (t : turn_outcome) : handler unit :=
  let* n := gets current_loop in
  match status_messages !! current_index n with
  | Some provider =>
      match t with
      | TextRaised e => raise e
      | TurnOk =>
          let* current_status := gets provider in
          attempt (Presence current_status) None
      | PresenceRaised e =>
          let* current_status := gets provider in
          attempt (Presence current_status) (Some e)
      end
  | None => raise IndexError
  end.




(** ** Basic facts *)

Lemma Qltb_lt (x y : Q) : Qltb x y = true ↔ (x < y)%Q.
Proof.
  unfold Qltb. rewrite negb_true_iff, <- not_true_iff_false, Qle_bool_iff.
  split; [apply Qnot_le_lt | apply Qlt_not_le].
Qed.

Lemma Qltb_ge (x y : Q) : Qltb x y = false ↔ (y <= x)%Q.
Proof.
  unfold Qltb. rewrite negb_false_iff, Qle_bool_iff. done.
Qed.

Lemma current_index_lt (n : nat) : (current_index n < 4)%nat.
Proof. unfold current_index. cbn [length status_messages]. apply Nat.mod_upper_bound. lia. Qed.

Lemma status_messages_lookup (n : nat) : is_Some (status_messages !! current_index n).
Proof. apply lookup_lt_is_Some. cbn [length status_messages]. apply current_index_lt. Qed.

(** The fetch-and-reply part always completes, asks the network exactly
    once and changes nothing but the version cache. *)
Lemma refresh_and_reply_run (net : net_outcome) (presence : option exn) (st : Bot) :
  ∃ tr, refresh_and_reply net presence st
        = (Returned tt, set_roblox_version (force_refresh net (roblox_version st)).2 st,
           NetworkFetch :: tr)
        ∧ forallb shows_result tr = true.
Proof.
  destruct (status_messages_lookup (current_loop st)) as [p Hp].
  unfold refresh_and_reply, bind, try_except, gets, attempt, call_force_refresh.
  destruct (force_refresh net (roblox_version st)) as [data rv].
  destruct (truthy data.1); cbn -[current_index]; [|by eexists].
  rewrite Hp.
  destruct (Nat.eqb (current_index (current_loop st)) 3); [destruct presence|]; cbn;
    by eexists.
Qed.

Lemma refresh_version_blocked (uid : Z) (now : Q) (net : net_outcome)
    (presence : option exn) (st : Bot) :
  refresh_blocked st uid now →
  refresh_version true uid now net presence st
  = (Returned tt, st,
     [Reply (CooldownLeft
        (round1 (REFRESH_COOLDOWN - (now - default 0%Q (refresh_cooldowns st !! uid)))))]).
Proof.
  intros Hb. apply Qltb_lt in Hb.
  unfold refresh_version, bind, gets. cbn [negb]. cbv beta iota.
  rewrite Hb. reflexivity.
Qed.

Lemma refresh_version_permitted (uid : Z) (now : Q) (net : net_outcome)
    (presence : option exn) (st : Bot) :
  refresh_permitted st uid now →
  refresh_version true uid now net presence st
  = refresh_and_reply net presence
      (set_refresh_cooldowns (<[uid := now]> (refresh_cooldowns st)) st).
Proof.
  intros Hp. apply Qltb_ge in Hp.
  unfold refresh_version, bind, gets, modify. cbn [negb]. cbv beta iota.
  rewrite Hp.
  destruct (refresh_and_reply net presence _) as [[r st'] tr]. reflexivity.
Qed.

(** ** Rounding *)

Lemma round_half_even_close (q : Q) :
  (q - (1 # 2) <= inject_Z (round_half_even q) <= q + (1 # 2))%Q.
Proof.
  unfold round_half_even.
  pose proof (Qfloor_le q) as Hlo. pose proof (Qlt_floor q) as Hhi.
  rewrite inject_Z_plus in Hhi. change (inject_Z 1) with 1%Q in Hhi.
  destruct (Qcompare_spec (q - inject_Z (Qfloor q)) (1 # 2)) as [He|Hl|Hg];
    [destruct (Z.even (Qfloor q))| |];
    rewrite ?inject_Z_plus; change (inject_Z 1) with 1%Q; lra.
Qed.

Lemma round1_close (q : Q) : (q - (1 # 20) <= round1 q <= q + (1 # 20))%Q.
Proof.
  unfold round1. pose proof (round_half_even_close (q * 10)) as H.
  set (r := inject_Z (round_half_even (q * 10))) in *.
  split; apply Qmult_le_r with (z := 10%Q); try reflexivity; field_simplify; lra.
Qed.

Lemma shows_result_fetches (tr : list event) :
  forallb shows_result tr = true → fetches tr = 0%nat.
Proof.
  unfold fetches. induction tr as [|ev tr IH]; [done|].
  cbn. intros [Hev Htr]%andb_prop. destruct ev; try discriminate Hev; cbn; auto.
Qed.

Lemma shows_result_no_cooldown (tr : list event) (wait : Q) :
  forallb shows_result tr = true → Reply (CooldownLeft wait) ∉ tr.
Proof.
  intros Hall Hin. apply list_elem_of_In in Hin.
  rewrite forallb_forall in Hall. apply Hall in Hin. discriminate Hin.
Qed.

(** ** /refreshversion: the cooldown *)

(** C9. A requester with no entry in [refresh_cooldowns] gets the default
    last-refresh time 0: once the clock reads at least the 60-second
    window, no call of theirs is answered with the cooldown message, and
    an administrator's call goes through to the fetch (one network
    request, the requester's entry set to the clock reading). *)
Theorem first_refresh_not_refused (st : Bot) (uid : Z) (now : Q) :
  refresh_cooldowns st !! uid = None →
  (REFRESH_COOLDOWN <= now)%Q →
  (∀ is_admin net presence wait,
      Reply (CooldownLeft wait) ∉ trace (refresh_version is_admin uid now net presence st))
  ∧ (∀ net presence,
      let done := refresh_version true uid now net presence st in
      fetches (trace done) = 1%nat
      ∧ outcome done = Returned tt
      ∧ refresh_cooldowns (final done) !! uid = Some now).
Proof.
  intros Hnone Hclock.
  assert (Hperm : refresh_permitted st uid now).
  { unfold refresh_permitted. rewrite Hnone. cbn [default]. lra. }
  split.
  - intros [] net presence wait.
    + rewrite (refresh_version_permitted _ _ net presence _ Hperm).
      destruct (refresh_and_reply_run net presence
        (set_refresh_cooldowns (<[uid := now]> (refresh_cooldowns st)) st)) as (tr & -> & Htr).
      cbn [trace snd]. intros Hin.
      apply elem_of_cons in Hin as [Heq | Hin]; [discriminate Heq|].
      by apply shows_result_no_cooldown in Hin.
    + cbn. intros Hin. apply elem_of_cons in Hin as [Heq | Hin]; [discriminate Heq|].
      by apply elem_of_nil in Hin.
  - intros net presence done. subst done.
    rewrite (refresh_version_permitted _ _ net presence _ Hperm).
    destruct (refresh_and_reply_run net presence
      (set_refresh_cooldowns (<[uid := now]> (refresh_cooldowns st)) st)) as (tr & -> & Htr).
    cbn [trace outcome final fst snd]. split; [|split].
    + apply shows_result_fetches in Htr. unfold fetches in *. cbn. by rewrite Htr.
    + reflexivity.
    + cbn. apply lookup_insert_eq.
Qed.

(** C1. Two force-refresh calls by one administrator, the first outside
    its cooldown window and the second less than 60 seconds after it:
    together they make exactly one network request, whatever the first
    fetch answered. The second returns before any fetch, replies with the
    remaining wait (60 minus the elapsed time, to one decimal) and leaves
    the whole state, [refresh_cooldowns] and snapshot included, as the
    first call left it. *)
Theorem refresh_twice_one_fetch (st : Bot) (uid : Z) (t1 t2 : Q) (net1 net2 : net_outcome)
    (presence1 presence2 : option exn) :
  refresh_permitted st uid t1 →
  (t2 - t1 < REFRESH_COOLDOWN)%Q →
  let first := refresh_version true uid t1 net1 presence1 st in
  let second := refresh_version true uid t2 net2 presence2 (final first) in
  fetches (trace first ++ trace second) = 1%nat
  ∧ fetches (trace second) = 0%nat
  ∧ trace second = [Reply (CooldownLeft (round1 (REFRESH_COOLDOWN - (t2 - t1))))]
  ∧ outcome second = Returned tt
  ∧ final second = final first.
Proof.
  intros Hperm Hnear first second. subst first second.
  rewrite (refresh_version_permitted _ _ net1 presence1 _ Hperm).
  destruct (refresh_and_reply_run net1 presence1
    (set_refresh_cooldowns (<[uid := t1]> (refresh_cooldowns st)) st)) as (tr & -> & Htr).
  apply shows_result_fetches in Htr.
  cbn [final trace fst snd].
  rewrite refresh_version_blocked.
  - cbn [final trace outcome fst snd set_roblox_version set_refresh_cooldowns
         refresh_cooldowns].
    rewrite lookup_insert_eq. cbn [default].
    repeat split.
    unfold fetches in *. rewrite List.filter_app, length_app. cbn. rewrite Htr. reflexivity.
  - unfold refresh_blocked. cbn. rewrite lookup_insert_eq. exact Hnear.
Qed.

(** C3. A permitted force-refresh writes the requester's entry before it
    fetches: the handler is the fetch-and-reply part run from the state
    that already holds [refresh_cooldowns[uid] = now]. So the entry is
    [now] after the call whatever the network answered, and a failed
    fetch still blocks the requester for the next 60 seconds; the
    snapshot is the fetched one on success and the old one on failure. *)
Theorem refresh_attempt_sets_cooldown (st : Bot) (uid : Z) (now : Q) (net : net_outcome)
    (presence : option exn) :
  refresh_permitted st uid now →
  let attempted := set_refresh_cooldowns (<[uid := now]> (refresh_cooldowns st)) st in
  let done := refresh_version true uid now net presence st in
  done = refresh_and_reply net presence attempted
  ∧ refresh_cooldowns (final done) = <[uid := now]> (refresh_cooldowns st)
  ∧ (∀ later, (later - now < REFRESH_COOLDOWN)%Q → refresh_blocked (final done) uid later)
  ∧ (net = NetFail → roblox_version (final done) = roblox_version st)
  ∧ (∀ ver dt at_time, net = NetOk ver dt at_time →
       snapshot (roblox_version (final done)) = Some (mkSnapshot ver dt at_time))
  ∧ (roblox_version (final done) ≠ roblox_version st → net ≠ NetFail).
Proof.
  intros Hperm attempted done. subst done.
  rewrite (refresh_version_permitted _ _ net presence _ Hperm). fold attempted.
  destruct (refresh_and_reply_run net presence attempted) as (tr & -> & _).
  cbn [final fst snd]. split; [reflexivity|]. split; [reflexivity|].
  split; [|split; [|split]].
  - intros later Hlater. unfold refresh_blocked. cbn.
    rewrite lookup_insert_eq. exact Hlater.
  - intros ->. reflexivity.
  - intros ver dt at_time ->. reflexivity.
  - intros Hchanged ->. by apply Hchanged.
Qed.

(** C7 (as the code does it). Inside the cooldown window the handler
    sends one reply, the remaining wait rounded to one decimal (within
    0.05 s of 60 minus the elapsed time), returns, and changes nothing:
    the cached snapshot stays as it was, and no version is shown to the
    caller. *)
Theorem refresh_blocked_reply (st : Bot) (uid : Z) (now : Q) (net : net_outcome)
    (presence : option exn) :
  refresh_blocked st uid now →
  let remaining := (REFRESH_COOLDOWN - (now - default 0 (refresh_cooldowns st !! uid)))%Q in
  let done := refresh_version true uid now net presence st in
  trace done = [Reply (CooldownLeft (round1 remaining))]
  ∧ (remaining - (1 # 20) <= round1 remaining <= remaining + (1 # 20))%Q
  ∧ outcome done = Returned tt
  ∧ final done = st
  ∧ versions_shown (trace done) = []
  ∧ fetches (trace done) = 0%nat.
Proof.
  intros Hb remaining done. subst done.
  rewrite (refresh_version_blocked _ _ net presence _ Hb). fold remaining.
  cbn [trace outcome final fst snd].
  repeat split; apply round1_close.
Qed.

(** ** The account manager *)

Lemma get_account_checkout (uid : Z) (now : Q) (am : AccountManager) (a : string)
    (rest : list string) :
  cooldown_satisfied am uid now →
  load_accounts am = a :: rest →
  get_account uid now am
  = ((Some a, MsgOk), mkAccountManager rest (<[uid := now]> (cooldowns am)) (getacc_cooldown am)).
Proof.
  intros Hok Hpool. unfold get_account, checkout. rewrite Hpool. cbn.
  destruct (cooldowns am !! uid) as [last|] eqn:Hlast; [|reflexivity].
  specialize (Hok last Hlast). apply Qltb_ge in Hok. by rewrite Hok.
Qed.

Lemma get_account_refused (uid : Z) (now last : Q) (am : AccountManager) :
  cooldowns am !! uid = Some last →
  (now - last < getacc_cooldown am)%Q →
  get_account uid now am = ((None, MsgCooldown (getacc_cooldown am - (now - last))), am).
Proof.
  intros Hlast Hin. unfold get_account. rewrite Hlast.
  apply Qltb_lt in Hin. by rewrite Hin.
Qed.

(** A call either refuses and leaves the manager alone, or takes the
    front of the pool. *)
Lemma get_account_cases (uid : Z) (now : Q) (am : AccountManager) :
  (∃ msg, get_account uid now am = ((None, msg), am))
  ∨ (∃ a rest am', load_accounts am = a :: rest
       ∧ get_account uid now am = ((Some a, MsgOk), am')
       ∧ load_accounts am' = rest).
Proof.
  assert (Hc : (∃ msg, checkout uid now am = ((None, msg), am))
    ∨ (∃ a rest am', load_accounts am = a :: rest
         ∧ checkout uid now am = ((Some a, MsgOk), am') ∧ load_accounts am' = rest)).
  { unfold checkout. destruct (load_accounts am) as [|a rest]; [left; by eexists|].
    right. by eexists _, _, _. }
  unfold get_account. destruct (cooldowns am !! uid) as [last|]; [|exact Hc].
  destruct (Qltb _ _); [left; by eexists | exact Hc].
Qed.

Lemma restore_account_front (acc : string) (am : AccountManager) :
  load_accounts (restore_account acc am) = acc :: load_accounts am.
Proof. reflexivity. Qed.

Lemma restore_account_cooldowns (acc : string) (am : AccountManager) :
  cooldowns (restore_account acc am) = cooldowns am
  ∧ getacc_cooldown (restore_account acc am) = getacc_cooldown am.
Proof. split; reflexivity. Qed.

(** C4. The three lines that compensate a failed delivery put the
    account at index 0 of the persisted pool, ahead of what was there;
    the next [get_account], from any requester the cooldown check lets
    through, returns that account and leaves the pool as it was before
    the restore. *)
Theorem restore_then_get_account (am : AccountManager) (a : string) (uid : Z) (now : Q) :
  cooldown_satisfied (restore_account a am) uid now →
  load_accounts (restore_account a am) = a :: load_accounts am
  ∧ load_accounts (restore_account a am) !! 0%nat = Some a
  ∧ (get_account uid now (restore_account a am)).1 = (Some a, MsgOk)
  ∧ load_accounts (get_account uid now (restore_account a am)).2 = load_accounts am.
Proof.
  intros Hok.
  rewrite (get_account_checkout uid now _ a (load_accounts am) Hok (restore_account_front a am)).
  repeat split.
Qed.

(** ** /getacc: a delivery that fails *)

(** What a successful checkout did to the manager. *)
Lemma get_account_served (uid : Z) (now : Q) (am am1 : AccountManager) (a : string)
    (msg : am_msg) :
  get_account uid now am = ((Some a, msg), am1) →
  load_accounts am = a :: load_accounts am1
  ∧ cooldowns am1 = <[uid := now]> (cooldowns am)
  ∧ getacc_cooldown am1 = getacc_cooldown am.
Proof.
  assert (Hc : checkout uid now am = ((Some a, msg), am1) →
    load_accounts am = a :: load_accounts am1
    ∧ cooldowns am1 = <[uid := now]> (cooldowns am)
    ∧ getacc_cooldown am1 = getacc_cooldown am).
  { unfold checkout. destruct (load_accounts am) as [|b rest]; [discriminate|].
    intros [= -> _ <-]. by cbn. }
  unfold get_account. destruct (cooldowns am !! uid) as [last|]; [|exact Hc].
  destruct (Qltb _ _); [discriminate | exact Hc].
Qed.

(** The run of [get_account_cmd] when the manager hands out [a] and the
    [try] block raises [e]. *)
Lemma get_account_cmd_failed (st : Bot) (uid : Z) (now : Q) (dm ack : option exn) (e : exn)
    (a : string) (msg : am_msg) (am1 : AccountManager) :
  get_account uid now (account_manager st) = ((Some a, msg), am1) →
  a ≠ "" →
  first_failure dm ack = Some e →
  get_account_cmd uid now dm ack st
  = (Raised e,
     set_account_manager (restore_account a am1) st,
     DirectMessage a
       :: match dm with Some _ => [] | None => [Reply SentViaDM] end
       ++ [Reply EnableDMs; LogRestored uid]).
Proof.
  intros Hget Hne Hfail.
  unfold get_account_cmd, bind, on_account_manager. rewrite Hget.
  cbn [fst snd truthy default]. apply String.eqb_neq in Hne. rewrite Hne. cbn [negb].
  unfold try_except, bind, attempt, emit, raise.
  destruct dm as [e'|]; cbn in Hfail.
  - injection Hfail as ->. reflexivity.
  - subst ack. reflexivity.
Qed.

(** C5. When the delivery fails after the manager handed out [a], the
    compensation writes the pool and nothing else: [restore_account]
    keeps the cooldown map, so after the handler the manager is the one
    the checkout left with [a] back in front. The pool is what it was
    before the checkout, the requester's entry stays at the time of the
    checkout, every other global is untouched, and the requester is
    refused for the whole window that follows. *)
Theorem failed_delivery_keeps_cooldown (st : Bot) (uid : Z) (now : Q) (dm ack : option exn)
    (e : exn) (a : string) (msg : am_msg) (am1 : AccountManager) :
  get_account uid now (account_manager st) = ((Some a, msg), am1) →
  a ≠ "" →
  first_failure dm ack = Some e →
  let done := get_account_cmd uid now dm ack st in
  let am := account_manager (final done) in
  (∀ acc am0, cooldowns (restore_account acc am0) = cooldowns am0)
  ∧ am = restore_account a am1
  ∧ cooldowns am = cooldowns am1
  ∧ cooldowns am !! uid = Some now
  ∧ load_accounts am = load_accounts (account_manager st)
  ∧ getacc_cooldown am = getacc_cooldown (account_manager st)
  ∧ roblox_version (final done) = roblox_version st
  ∧ refresh_cooldowns (final done) = refresh_cooldowns st
  ∧ current_loop (final done) = current_loop st
  ∧ (∀ later, (later - now < getacc_cooldown am)%Q →
       get_account uid later am
       = ((None, MsgCooldown (getacc_cooldown am - (later - now))), am)).
Proof.
  intros Hget Hne Hfail done am. subst am done.
  rewrite (get_account_cmd_failed st uid now dm ack e a msg am1 Hget Hne Hfail).
  apply get_account_served in Hget as (Hpool & Hcd & Hwin).
  cbn [final fst snd set_account_manager account_manager roblox_version refresh_cooldowns
       current_loop].
  assert (Hnow : cooldowns (restore_account a am1) !! uid = Some now).
  { cbn. rewrite Hcd. apply lookup_insert_eq. }
  do 3 (split; [reflexivity|]). split; [exact Hnow|].
  split; [by rewrite Hpool|]. split; [exact Hwin|]. do 3 (split; [reflexivity|]).
  intros later Hlater. by apply get_account_refused.
Qed.

(** The handlers with every unguarded call completing. *)
Lemma get_account_cmd_awaits_complete (uid : Z) (now : Q) (dm ack : option exn) :
  get_account_cmd uid now dm ack
  = get_account_cmd_awaits uid now (mkGetaccOutcomes dm ack Restored None None None).
Proof. reflexivity. Qed.

(** The exception the except block of bot.py 159-165 ends with, once
    the compensation is done: the one it caught, unless the reply or
    the log entry raised first. *)
Lemma get_account_cmd_awaits_failed (st : Bot) (uid : Z) (now : Q) (o : getacc_outcomes)
    (e : exn) (a : string) (msg : am_msg) (am1 : AccountManager) :
  get_account uid now (account_manager st) = ((Some a, msg), am1) →
  a ≠ "" →
  first_failure (go_dm o) (go_ack o) = Some e →
  go_restore o = Restored →
  get_account_cmd_awaits uid now o st
  = (Raised (match go_enable o with
             | Some e2 => e2
             | None => match go_log o with Some e3 => e3 | None => e end
             end),
     set_account_manager (restore_account a am1) st,
     DirectMessage a
       :: match go_dm o with Some _ => [] | None => [Reply SentViaDM] end
       ++ Reply EnableDMs
       :: match go_enable o with Some _ => [] | None => [LogRestored uid] end).
Proof.
  intros Hget Hne Hfail Hrestore.
  unfold get_account_cmd_awaits, bind, on_account_manager. rewrite Hget.
  cbn [fst snd truthy default]. apply String.eqb_neq in Hne. rewrite Hne. cbn [negb].
  rewrite Hrestore.
  unfold try_except, bind, attempt, emit, raise, restore_step, on_account_manager.
  destruct (go_dm o) as [e'|]; cbn in Hfail.
  - injection Hfail as ->. destruct (go_enable o), (go_log o); reflexivity.
  - rewrite Hfail. destruct (go_enable o), (go_log o); reflexivity.
Qed.

(** A checkout that hands out an account leaves a manager that differs
    from the one with the account put back. *)
Lemma restore_account_changes (a : string) (am : AccountManager) : restore_account a am ≠ am.
Proof.
  intros H. apply (f_equal (λ m, length (load_accounts m))) in H.
  rewrite restore_account_front in H. cbn [length] in H. lia.
Qed.

(** C10. When the direct message fails after the manager handed out a
    non-empty account, and the three lines of the compensation complete,
    the handler always ends in an exception, and in the state it leaves
    the manager is the one the checkout left with the account written
    back at index 0 of the persisted pool. This holds whatever the
    calls after the compensation answer: also when the [Enable DMs!]
    reply or the log entry raises in its turn, the pool has the account
    again, so the write precedes everything that can propagate. When
    those two calls complete, the exception raised is the one of the
    direct message, after the reply and the log entry. The
    acknowledgement is never sent. *)
Theorem failed_delivery_restores_account (st : Bot) (uid : Z) (now : Q) (o : getacc_outcomes)
    (e : exn) (a : string) (msg : am_msg) (am1 : AccountManager) :
  get_account uid now (account_manager st) = ((Some a, msg), am1) →
  a ≠ "" →
  go_dm o = Some e →
  go_restore o = Restored →
  let done := get_account_cmd_awaits uid now o st in
  (∃ raised, outcome done = Raised raised)
  ∧ account_manager (final done) = restore_account a am1
  ∧ account_manager (final done) ≠ am1
  ∧ accounts_file (account_manager (final done)) = a :: accounts_file am1
  ∧ load_accounts (account_manager (final done)) !! 0%nat = Some a
  ∧ load_accounts (account_manager (final done)) = load_accounts (account_manager st)
  ∧ (Reply SentViaDM ∉ trace done)
  ∧ (go_enable o = None → go_log o = None →
       outcome done = Raised e
       ∧ trace done = [DirectMessage a; Reply EnableDMs; LogRestored uid])
  ∧ (∀ e2, go_enable o = Some e2 →
       outcome done = Raised e2 ∧ trace done = [DirectMessage a; Reply EnableDMs]).
Proof.
  intros Hget Hne Hdm Hrestore done. subst done.
  assert (Hfail : first_failure (go_dm o) (go_ack o) = Some e) by (by rewrite Hdm).
  rewrite (get_account_cmd_awaits_failed st uid now o e a msg am1 Hget Hne Hfail Hrestore).
  apply get_account_served in Hget as (Hpool & _).
  cbn [outcome final trace fst snd set_account_manager account_manager].
  rewrite Hdm. cbn [app].
  split; [by eexists|]. split; [reflexivity|].
  split; [apply restore_account_changes|]. split; [reflexivity|].
  split; [reflexivity|]. split; [by rewrite restore_account_front, Hpool|].
  split.
  { intros Hin. apply elem_of_cons in Hin as [Heq | Hin]; [discriminate Heq|].
    apply elem_of_cons in Hin as [Heq | Hin]; [discriminate Heq|].
    destruct (go_enable o); [by apply elem_of_nil in Hin|].
    apply elem_of_cons in Hin as [Heq | Hin]; [discriminate Heq|].
    by apply elem_of_nil in Hin. }
  split.
  - intros -> ->. done.
  - intros e2 ->. done.
Qed.

(** ** Checkouts in any order *)

(** What a batch hands out, followed by what it leaves, is the pool it
    started from: the calls take the pool from the front, entry by entry. *)
Lemma get_accounts_split (calls : list (Z * Q)) (am : AccountManager) :
  handed_out (get_accounts calls am).1 ++ load_accounts (get_accounts calls am).2
  = load_accounts am.
Proof.
  revert am. induction calls as [|[uid now] calls IH]; intros am; [reflexivity|].
  cbn [get_accounts].
  destruct (get_account_cases uid now am) as [[msg Hg] | (a & rest & am' & Hpool & Hg & Hrest)];
    rewrite Hg; specialize (IH (get_account uid now am).2); rewrite Hg in IH; cbn [snd] in IH;
    destruct (get_accounts calls _) as [accs am2]; cbn in *.
  - exact IH.
  - rewrite Hpool. f_equal. by rewrite IH.
Qed.

Lemma get_accounts_from_pool (calls : list (Z * Q)) (am : AccountManager) (i : nat)
    (a : string) :
  (get_accounts calls am).1 !! i = Some (Some a) → a ∈ load_accounts am.
Proof.
  intros Hi. rewrite <- (get_accounts_split calls am). apply elem_of_app. left.
  unfold handed_out. apply list_elem_of_omap. exists (Some a). split; [|reflexivity].
  by eapply list_elem_of_lookup_2.
Qed.

(** Calls of [get_account] alone, with no restore in between: whatever
    the order, the requesters and the clock readings, the accounts handed
    out are the front entries of the pool, each entry handed out once; so
    when the pool holds no account twice, no two calls return the same
    account. *)
Lemma get_accounts_at_most_once (calls : list (Z * Q)) (am : AccountManager) :
  NoDup (load_accounts am) →
  let served := (get_accounts calls am).1 in
  handed_out served ++ load_accounts (get_accounts calls am).2 = load_accounts am
  ∧ NoDup (handed_out served)
  ∧ (∀ i j a, served !! i = Some (Some a) → served !! j = Some (Some a) → i = j).
Proof.
  intros Hnd served. subst served.
  split; [apply get_accounts_split|]. split.
  { rewrite <- (get_accounts_split calls am) in Hnd. by apply NoDup_app in Hnd as [? _]. }
  revert am Hnd. induction calls as [|[uid now] calls IH]; intros am Hnd i j a; [done|].
  cbn [get_accounts].
  destruct (get_account_cases uid now am) as [[msg Hg] | (b & rest & am' & Hpool & Hg & Hrest)];
    rewrite Hg;
    pose proof (get_accounts_from_pool calls (get_account uid now am).2) as Hin;
    specialize (IH (get_account uid now am).2); rewrite Hg in IH, Hin; cbn [snd] in IH, Hin;
    destruct (get_accounts calls _) as [accs am2]; cbn [fst] in *.
  - destruct i as [|i], j as [|j]; cbn; try discriminate.
    intros Hi Hj. f_equal. by apply (IH Hnd i j a).
  - rewrite Hpool in Hnd. apply NoDup_cons in Hnd as [Hfresh Hnd]. rewrite <- Hrest in Hfresh, Hnd.
    destruct i as [|i], j as [|j]; cbn; [done| | |].
    + intros [= ->] Hj. by apply Hin in Hj.
    + intros Hi [= ->]. by apply Hin in Hi.
    + intros Hi Hj. f_equal. by apply (IH Hnd i j a).
Qed.

(** ** Status rotation *)

(** C8. The list of providers has length 4 and every tick renders the
    provider at index [current_loop mod 4], without raising and without
    changing the state. The index is a function of the counter alone,
    with period 4, and so is what gets rendered when the rest of the
    state stays the same; one turn of the loop moves the counter on by
    one. *)
Theorem status_rotation_periodic (st : Bot) :
  length status_messages = 4%nat
  ∧ (∃ provider, status_messages !! (current_loop st mod 4)%nat = Some provider
       ∧ update_status st = (Returned tt, st, [Presence (provider st)]))
  ∧ (∀ n, current_index (n + 4) = current_index n)
  ∧ (∀ n, update_status (set_current_loop (n + 4) st)
          = (Returned tt, set_current_loop (n + 4) st,
             trace (update_status (set_current_loop n st))))
  ∧ current_loop (final (update_status_iteration st)) = S (current_loop st).
Proof.
  assert (Hperiod : ∀ n, current_index (n + 4) = current_index n).
  { intros n. unfold current_index. cbn [length status_messages].
    replace (n + 4)%nat with (n + 1 * 4)%nat by lia. by rewrite Nat.Div0.mod_add. }
  assert (Hrun : ∀ st0, ∃ provider,
    status_messages !! current_index (current_loop st0) = Some provider
    ∧ update_status st0 = (Returned tt, st0, [Presence (provider st0)])).
  { intros st0. destruct (status_messages_lookup (current_loop st0)) as [p Hp].
    exists p. split; [exact Hp|]. unfold update_status, bind, gets.
    rewrite Hp. reflexivity. }
  split; [reflexivity|]. split; [exact (Hrun st)|]. split; [exact Hperiod|]. split.
  - intros n.
    destruct (Hrun (set_current_loop (n + 4) st)) as (p & Hp & ->).
    destruct (Hrun (set_current_loop n st)) as (q & Hq & ->).
    cbn [current_loop set_current_loop] in Hp, Hq. rewrite Hperiod, Hq in Hp.
    injection Hp as <-. cbn [trace snd]. do 3 f_equal.
    pose proof (current_index_lt n) as Hlt.
    destruct (current_index n) as [|[|[|[|k]]]]; [| | | |lia];
      cbn in Hq; injection Hq as <-; reflexivity.
  - unfold update_status_iteration, bind.
    destruct (Hrun st) as (p & _ & ->). reflexivity.
Qed.

(** ** /refreshversion, call after call *)

(** A call either leaves the state alone and asks nothing of the
    network, or it is a permitted administrator's call, which sets the
    requester's entry and fetches. *)
Lemma refresh_version_cases (is_admin : bool) (uid : Z) (now : Q) (net : net_outcome)
    (presence : option exn) (st : Bot) :
  let r := refresh_version is_admin uid now net presence st in
  (final r = st ∧ (NetworkFetch ∉ trace r) ∧ (is_admin = true → refresh_blocked st uid now))
  ∨ (is_admin = true ∧ refresh_permitted st uid now
     ∧ ∃ tr, r = (Returned tt,
                  set_roblox_version (force_refresh net (roblox_version st)).2
                    (set_refresh_cooldowns (<[uid := now]> (refresh_cooldowns st)) st),
                  NetworkFetch :: tr)
             ∧ forallb shows_result tr = true).
Proof.
  intros r. subst r. destruct is_admin.
  - destruct (Qlt_le_dec (now - default 0%Q (refresh_cooldowns st !! uid)) REFRESH_COOLDOWN)
      as [Hb | Hp].
    + left. rewrite (refresh_version_blocked uid now net presence st Hb).
      cbn [final trace fst snd]. split; [reflexivity|]. split; [|done].
      intros Hin. apply elem_of_cons in Hin as [Heq | Hin]; [discriminate Heq|].
      by apply elem_of_nil in Hin.
    + right. split; [reflexivity|]. split; [exact Hp|].
      rewrite (refresh_version_permitted uid now net presence st Hp).
      destruct (refresh_and_reply_run net presence
        (set_refresh_cooldowns (<[uid := now]> (refresh_cooldowns st)) st)) as (tr & Hrun & Htr).
      exists tr. split; [exact Hrun | exact Htr].
  - left. cbn. split; [reflexivity|]. split; [|discriminate].
    intros Hin. apply elem_of_cons in Hin as [Heq | Hin]; [discriminate Heq|].
    by apply elem_of_nil in Hin.
Qed.

(** Once [uid] has an entry no earlier than [t], every later fetch of
    [uid] comes at least a window after [t]. *)
Lemma refresh_calls_after_entry (cs : list refresh_call) (st : Bot) (uid : Z) (t last : Q) :
  refresh_cooldowns st !! uid = Some last →
  (t <= last)%Q →
  ∀ j cj trj,
    cs !! j = Some cj →
    (refresh_calls cs st).1 !! j = Some trj →
    rc_uid cj = uid →
    NetworkFetch ∈ trj →
    (REFRESH_COOLDOWN <= rc_now cj - t)%Q.
Proof.
  revert st last. induction cs as [|c cs IH]; intros st last Hlast Hle j cj trj Hcj Htrj Huid Hin;
    [done|].
  cbn [refresh_calls] in Htrj.
  pose proof (refresh_version_cases (rc_admin c) (rc_uid c) (rc_now c) (rc_net c)
                (rc_presence c) st) as Hcase. cbv zeta in Hcase.
  destruct (refresh_calls cs (final _)) as [trs st'] eqn:Hrest.
  destruct j as [|j]; cbn in Hcj, Htrj.
  - injection Hcj as ->. injection Htrj as <-.
    destruct Hcase as [(_ & Hno & _) | (_ & Hperm & _)]; [done|].
    unfold refresh_permitted in Hperm. rewrite Huid, Hlast in Hperm. cbn [default id] in Hperm.
    unfold REFRESH_COOLDOWN in *. lra.
  - destruct Hcase as [(Hsame & _) | (_ & Hperm & tr & Hrun & _)].
    + rewrite Hsame in Hrest.
      apply (IH st last Hlast Hle j cj trj Hcj); [by rewrite Hrest | done | done].
    + rewrite Hrun in Hrest. cbn [final fst snd] in Hrest.
      match type of Hrest with refresh_calls _ ?s = _ => set (st1 := s) in * end.
      destruct (decide (rc_uid c = uid)) as [Heq | Hne].
      * unfold refresh_permitted in Hperm. rewrite Heq, Hlast in Hperm. cbn [default id] in Hperm.
        apply (IH st1 (rc_now c)) with (j := j) (trj := trj); try done.
        -- subst st1. cbn. rewrite Heq. apply lookup_insert_eq.
        -- unfold REFRESH_COOLDOWN in *. lra.
        -- by rewrite Hrest.
      * apply (IH st1 last) with (j := j) (trj := trj); try done.
        -- subst st1. cbn. by rewrite lookup_insert_ne.
        -- by rewrite Hrest.
Qed.

(** X1. However the calls of /refreshversion are ordered and whoever
    makes them, two of them by the same requester that both reach the
    network are at least 60 seconds apart by the clock readings. *)
Theorem refresh_rate_limit (cs : list refresh_call) (st : Bot) (i j : nat)
    (ci cj : refresh_call) (tri trj : list event) :
  (i < j)%nat →
  cs !! i = Some ci →
  cs !! j = Some cj →
  (refresh_calls cs st).1 !! i = Some tri →
  (refresh_calls cs st).1 !! j = Some trj →
  rc_uid ci = rc_uid cj →
  NetworkFetch ∈ tri →
  NetworkFetch ∈ trj →
  (REFRESH_COOLDOWN <= rc_now cj - rc_now ci)%Q.
Proof.
  revert st i j. induction cs as [|c cs IH]; intros st i j Hij Hci Hcj Htri Htrj Huid Hini Hinj;
    [done|].
  cbn [refresh_calls] in Htri, Htrj.
  pose proof (refresh_version_cases (rc_admin c) (rc_uid c) (rc_now c) (rc_net c)
                (rc_presence c) st) as Hcase. cbv zeta in Hcase.
  destruct (refresh_calls cs (final _)) as [trs st'] eqn:Hrest.
  destruct j as [|j]; [lia|]. cbn in Hcj, Htrj.
  destruct i as [|i]; cbn in Hci, Htri.
  - injection Hci as ->. injection Htri as <-.
    destruct Hcase as [(_ & Hno & _) | (_ & _ & tr & Hrun & _)]; [done|].
    rewrite Hrun in Hrest. cbn [final fst snd] in Hrest.
    match type of Hrest with refresh_calls _ ?s = _ => set (st1 := s) in * end.
    apply (refresh_calls_after_entry cs st1 (rc_uid ci) (rc_now ci) (rc_now ci))
      with (j := j) (trj := trj); try done.
    + subst st1. cbn. apply lookup_insert_eq.
    + lra.
    + by rewrite Hrest.
  - apply (IH (final (refresh_version (rc_admin c) (rc_uid c) (rc_now c) (rc_net c)
                        (rc_presence c) st)) i j); try done; [lia | |]; by rewrite Hrest.
Qed.

(** X2. A requester's entry moves only when that requester fetches:
    calls of theirs inside the window, and every call of anybody else,
    leave it where it was. So a window after the entry the requester's
    next call as administrator reaches the network, however many calls
    came in between. *)
Theorem refresh_entry_survives (cs : list refresh_call) (st : Bot) (uid : Z) :
  (∀ c, c ∈ cs → rc_uid c = uid → rc_admin c = true → refresh_blocked st uid (rc_now c)) →
  refresh_cooldowns (refresh_calls cs st).2 !! uid = refresh_cooldowns st !! uid
  ∧ (∀ now net presence,
       refresh_permitted st uid now →
       NetworkFetch ∈ trace (refresh_version true uid now net presence (refresh_calls cs st).2)).
Proof.
  intros Hblocked.
  assert (Hkeep : refresh_cooldowns (refresh_calls cs st).2 !! uid = refresh_cooldowns st !! uid).
  { revert st Hblocked. induction cs as [|c cs IH]; intros st Hblocked; [reflexivity|].
    cbn [refresh_calls].
    pose proof (refresh_version_cases (rc_admin c) (rc_uid c) (rc_now c) (rc_net c)
                  (rc_presence c) st) as Hcase. cbv zeta in Hcase.
    destruct (refresh_calls cs (final _)) as [trs st'] eqn:Hrest. cbn [snd].
    assert (Hentry : refresh_cooldowns
              (final (refresh_version (rc_admin c) (rc_uid c) (rc_now c) (rc_net c)
                        (rc_presence c) st)) !! uid
            = refresh_cooldowns st !! uid).
    { destruct Hcase as [(Hsame & _) | (Hadm & Hperm & tr & Hrun & _)].
      - by rewrite Hsame.
      - rewrite Hrun. cbn. destruct (decide (rc_uid c = uid)) as [Heq | Hne].
        + exfalso. specialize (Hblocked c (list_elem_of_here _ _) Heq Hadm).
          unfold refresh_blocked, refresh_permitted in *. rewrite Heq in Hperm.
          apply Qlt_not_le in Hblocked. by apply Hblocked.
        + by rewrite lookup_insert_ne. }
    rewrite <- Hentry.
    replace st' with (refresh_calls cs
      (final (refresh_version (rc_admin c) (rc_uid c) (rc_now c) (rc_net c)
                (rc_presence c) st))).2 by (by rewrite Hrest).
    apply IH. intros c' Hc' Huid Hadm. unfold refresh_blocked. rewrite Hentry.
    apply Hblocked; [by apply list_elem_of_further | done | done]. }
  split; [exact Hkeep|].
  intros now net presence Hperm.
  assert (Hperm' : refresh_permitted (refresh_calls cs st).2 uid now).
  { unfold refresh_permitted in *. by rewrite Hkeep. }
  rewrite (refresh_version_permitted uid now net presence _ Hperm').
  destruct (refresh_and_reply_run net presence
    (set_refresh_cooldowns (<[uid := now]> (refresh_cooldowns (refresh_calls cs st).2))
       (refresh_calls cs st).2)) as (tr & -> & _).
  cbn [trace snd]. apply list_elem_of_here.
Qed.

(** X3. /refreshversion keeps to its own data, for every caller, clock
    reading and answer of the network: the account manager and the
    status counter are left as they were, no other requester's entry
    changes, and the version cache changes only in a call that reaches
    the network. *)
Theorem refresh_version_frame (is_admin : bool) (uid : Z) (now : Q) (net : net_outcome)
    (presence : option exn) (st : Bot) :
  let r := refresh_version is_admin uid now net presence st in
  account_manager (final r) = account_manager st
  ∧ current_loop (final r) = current_loop st
  ∧ (∀ other, other ≠ uid → refresh_cooldowns (final r) !! other = refresh_cooldowns st !! other)
  ∧ (roblox_version (final r) ≠ roblox_version st → NetworkFetch ∈ trace r).
Proof.
  intros r.
  destruct (refresh_version_cases is_admin uid now net presence st)
    as [(Hsame & _) | (_ & _ & tr & Hrun & _)]; fold r in Hsame || fold r in Hrun.
  - rewrite Hsame. repeat split; done.
  - rewrite Hrun. cbn. repeat split.
    + intros other Hne. by rewrite lookup_insert_ne.
    + intros _. apply list_elem_of_here.
Qed.

Lemma refresh_version_awaits_complete (is_admin : bool) (uid : Z) (now : Q)
    (net : net_outcome) (presence : option exn) :
  refresh_version is_admin uid now net presence
  = refresh_version_awaits is_admin uid now net None presence.
Proof. reflexivity. Qed.



(** What a permitted refresh leaves in the trace. *)
Lemma refresh_and_reply_trace (net : net_outcome) (presence : option exn) (st : Bot) :
  let data := (force_refresh net (roblox_version st)).1 in
  let rv := (force_refresh net (roblox_version st)).2 in
  trace (refresh_and_reply net presence st)
  = NetworkFetch ::
    (if truthy data.1 then
       Reply (VersionRefreshed (default "" data.1)
                (if truthy data.2 then default "" data.2 else "Unknown"))
       :: (if Nat.eqb (current_index (current_loop st)) 3 then
             Presence (version_status_text rv)
               :: match presence with Some _ => [Warn] | None => [] end
           else [])
     else [Reply CouldNotFetch]).
Proof.
  destruct (status_messages_lookup (current_loop st)) as [p Hp].
  unfold refresh_and_reply, bind, try_except, gets, attempt, call_force_refresh.
  destruct (force_refresh net (roblox_version st)) as [data rv].
  destruct (truthy data.1) eqn:Hver; cbn -[current_index]; rewrite ?Hver; [|reflexivity].
  rewrite Hp.
  destruct (Nat.eqb (current_index (current_loop st)) 3); [destruct presence|]; reflexivity.
Qed.

(** X5. /refreshversion touches the presence only when it has a version
    to show and the status loop is on the version entry (the counter is
    3 modulo 4); then it shows the text of the cache as the fetch left
    it, once. On every other tick, for a refused or blocked caller, or
    without a version, the presence is left to the loop. *)
Theorem refresh_presence_only_on_version_tick (is_admin : bool) (uid : Z) (now : Q)
    (net : net_outcome) (presence : option exn) (st : Bot) :
  let r := refresh_version is_admin uid now net presence st in
  (∀ name, Presence name ∈ trace r →
     is_admin = true
     ∧ refresh_permitted st uid now
     ∧ (current_loop st mod 4 = 3)%nat
     ∧ truthy (version_data (roblox_version (final r))).1 = true
     ∧ name = version_status_text (roblox_version (final r)))
  ∧ (length (List.filter is_presence (trace r)) ≤ 1)%nat.
Proof.
  intros r.
  destruct (refresh_version_cases is_admin uid now net presence st)
    as [(Hsame & _ & _) | (Hadm & Hperm & tr & Hrun & _)].
  - fold r in Hsame. subst r. destruct is_admin.
    + destruct (Qlt_le_dec (now - default 0%Q (refresh_cooldowns st !! uid)) REFRESH_COOLDOWN)
        as [Hb | Hp].
      * rewrite (refresh_version_blocked uid now net presence st Hb). cbn. split; [|lia].
        intros name Hin. apply elem_of_cons in Hin as [Heq | Hin]; [discriminate Heq|].
        by apply elem_of_nil in Hin.
      * exfalso. rewrite (refresh_version_permitted uid now net presence st Hp) in Hsame.
        destruct (refresh_and_reply_run net presence
          (set_refresh_cooldowns (<[uid := now]> (refresh_cooldowns st)) st))
          as (tr & Hrun & _).
        rewrite Hrun in Hsame. cbn in Hsame.
        assert (Hl : refresh_cooldowns st !! uid = Some now).
        { rewrite <- Hsame at 1. cbn. apply lookup_insert_eq. }
        unfold refresh_permitted in Hp. rewrite Hl in Hp. cbn [default id] in Hp.
        unfold REFRESH_COOLDOWN in Hp. lra.
    + cbn. split; [|lia].
      intros name Hin. apply elem_of_cons in Hin as [Heq | Hin]; [discriminate Heq|].
      by apply elem_of_nil in Hin.
  - fold r in Hrun. subst is_admin.
    assert (Htr : trace r = trace (refresh_and_reply net presence
              (set_refresh_cooldowns (<[uid := now]> (refresh_cooldowns st)) st))).
    { subst r. by rewrite (refresh_version_permitted uid now net presence st Hperm). }
    rewrite refresh_and_reply_trace in Htr. cbv zeta in Htr.
    cbn [roblox_version current_loop set_refresh_cooldowns] in Htr.
    assert (Hrv : roblox_version (final r) = (force_refresh net (roblox_version st)).2).
    { by rewrite Hrun. }
    assert (Hdata : (force_refresh net (roblox_version st)).1
                    = version_data (force_refresh net (roblox_version st)).2).
    { destruct net; reflexivity. }
    rewrite Htr, Hrv, <- Hdata.
    destruct (truthy (force_refresh net (roblox_version st)).1.1) eqn:Hver.
    + destruct (Nat.eqb (current_index (current_loop st)) 3) eqn:Hidx.
      * apply Nat.eqb_eq in Hidx. split.
        -- intros name Hin. repeat split; try done.
           apply elem_of_cons in Hin as [Heq | Hin]; [discriminate Heq|].
           apply elem_of_cons in Hin as [Heq | Hin]; [discriminate Heq|].
           apply elem_of_cons in Hin as [Heq | Hin]; [by injection Heq|].
           destruct presence; [|by apply elem_of_nil in Hin].
           apply elem_of_cons in Hin as [Heq | Hin]; [discriminate Heq|].
           by apply elem_of_nil in Hin.
        -- destruct presence; cbn; lia.
      * split; [|cbn; lia].
        intros name Hin.
        apply elem_of_cons in Hin as [Heq | Hin]; [discriminate Heq|].
        apply elem_of_cons in Hin as [Heq | Hin]; [discriminate Heq|].
        by apply elem_of_nil in Hin.
    + split; [|cbn; lia].
      intros name Hin.
      apply elem_of_cons in Hin as [Heq | Hin]; [discriminate Heq|].
      apply elem_of_cons in Hin as [Heq | Hin]; [discriminate Heq|].
      by apply elem_of_nil in Hin.
Qed.

(** ** /getacc, every path *)

(** The run of [get_account_cmd], by what the manager answers and how
    the two awaits end. *)
Lemma get_account_cmd_run (uid : Z) (now : Q) (dm ack : option exn) (st : Bot)
    (acc : option string) (msg : am_msg) (am1 : AccountManager) :
  get_account uid now (account_manager st) = ((acc, msg), am1) →
  get_account_cmd uid now dm ack st
  = if truthy acc then
      match first_failure dm ack with
      | None =>
          (Returned tt, set_account_manager am1 st,
           [DirectMessage (default "" acc); Reply SentViaDM])
      | Some e =>
          (Raised e, set_account_manager (restore_account (default "" acc) am1) st,
           DirectMessage (default "" acc)
             :: match dm with Some _ => [] | None => [Reply SentViaDM] end
             ++ [Reply EnableDMs; LogRestored uid])
      end
    else (Returned tt, set_account_manager am1 st, [Reply (Refusal msg)]).
Proof.
  intros Hget. unfold get_account_cmd, bind, on_account_manager. rewrite Hget.
  cbn [fst snd]. destruct (truthy acc); [|reflexivity].
  unfold try_except, bind, attempt, emit, raise.
  destruct dm as [e|]; [reflexivity|]. destruct ack as [e|]; reflexivity.
Qed.

(** X6. When the manager hands out an account and both the message and
    the acknowledgement go through, the handler returns, the requester
    was sent exactly that account, and the pool is the one the checkout
    left: nothing is put back. *)
Theorem getacc_delivered (st : Bot) (uid : Z) (now : Q) (a : string) (msg : am_msg)
    (am1 : AccountManager) :
  get_account uid now (account_manager st) = ((Some a, msg), am1) →
  a ≠ "" →
  let done := get_account_cmd uid now None None st in
  outcome done = Returned tt
  ∧ trace done = [DirectMessage a; Reply SentViaDM]
  ∧ account_manager (final done) = am1.
Proof.
  intros Hget Hne done. subst done.
  rewrite (get_account_cmd_run uid now None None st _ _ _ Hget).
  cbn [truthy]. apply String.eqb_neq in Hne. rewrite Hne. cbn. done.
Qed.

(** X7. When the message is delivered but the acknowledgement raises,
    the handler takes the path of a failed delivery: the requester has
    been sent the account, and the compensation, when its three lines
    complete, writes the same account back at the front of the pool.
    This is so whatever the calls after it answer. The handler ends in
    an exception, and the next requester the cooldown check lets
    through is handed the account that was already delivered. *)
Theorem getacc_ack_failure_restores_sent_account (st : Bot) (uid : Z) (now : Q)
    (o : getacc_outcomes) (e : exn) (a : string) (msg : am_msg) (am1 : AccountManager) :
  get_account uid now (account_manager st) = ((Some a, msg), am1) →
  a ≠ "" →
  go_dm o = None →
  go_ack o = Some e →
  go_restore o = Restored →
  let done := get_account_cmd_awaits uid now o st in
  (∃ tr, trace done = DirectMessage a :: Reply SentViaDM :: Reply EnableDMs :: tr)
  ∧ (∃ raised, outcome done = Raised raised)
  ∧ account_manager (final done) = restore_account a am1
  ∧ account_manager (final done) ≠ am1
  ∧ load_accounts (account_manager (final done)) !! 0%nat = Some a
  ∧ (∀ uid2 now2, cooldown_satisfied (account_manager (final done)) uid2 now2 →
       (get_account uid2 now2 (account_manager (final done))).1 = (Some a, MsgOk))
  ∧ (go_enable o = None → go_log o = None → outcome done = Raised e).
Proof.
  intros Hget Hne Hdm Hack Hrestore done. subst done.
  assert (Hfail : first_failure (go_dm o) (go_ack o) = Some e) by (by rewrite Hdm, Hack).
  rewrite (get_account_cmd_awaits_failed st uid now o e a msg am1 Hget Hne Hfail Hrestore).
  cbn [outcome final trace fst snd set_account_manager account_manager].
  rewrite Hdm. cbn [app].
  split; [by eexists|]. split; [by eexists|]. split; [reflexivity|].
  split; [apply restore_account_changes|]. split; [reflexivity|]. split.
  - intros uid2 now2 Hok.
    by rewrite (get_account_checkout uid2 now2 _ a (load_accounts am1) Hok
                  (restore_account_front a am1)).
  - by intros -> ->.
Qed.

(** X8. When the manager answers with no account, or with the empty
    string, the handler only relays the manager's message: no direct
    message is attempted, nothing is put back into the pool, and it
    returns whatever the awaits would have answered. An empty string
    taken from the pool is therefore neither sent nor restored. *)
Theorem getacc_refused (st : Bot) (uid : Z) (now : Q) (dm ack : option exn)
    (acc : option string) (msg : am_msg) (am1 : AccountManager) :
  get_account uid now (account_manager st) = ((acc, msg), am1) →
  acc = None ∨ acc = Some "" →
  get_account_cmd uid now dm ack st
  = (Returned tt, set_account_manager am1 st, [Reply (Refusal msg)]).
Proof.
  intros Hget Hacc.
  rewrite (get_account_cmd_run uid now dm ack st _ _ _ Hget).
  by destruct Hacc as [-> | ->].
Qed.

(** X9. Whatever its calls answer, /getacc attempts at most one direct
    message; it is the first thing the handler sends, and what it
    carries is the non-empty account the manager handed out in this
    very call. A call the manager refuses sends no direct message. *)
Theorem getacc_sends_only_the_checked_out_account (st : Bot) (uid : Z) (now : Q)
    (o : getacc_outcomes) :
  let done := get_account_cmd_awaits uid now o st in
  (∀ x, DirectMessage x ∈ trace done →
     (get_account uid now (account_manager st)).1.1 = Some x ∧ x ≠ ""
     ∧ ∃ tr, trace done = DirectMessage x :: tr)
  ∧ (length (List.filter is_dm (trace done)) ≤ 1)%nat
  ∧ (truthy (get_account uid now (account_manager st)).1.1 = false →
       List.filter is_dm (trace done) = []).
Proof.
  intros done. subst done.
  destruct (get_account uid now (account_manager st)) as [[acc msg] am1] eqn:Hget.
  unfold get_account_cmd_awaits, bind, on_account_manager. rewrite Hget. cbn [fst snd].
  assert (Hno : ∀ r : result unit * Bot * list event,
    trace r = [Reply (Refusal msg)] →
    (∀ x, DirectMessage x ∈ trace r →
       acc = Some x ∧ x ≠ "" ∧ ∃ tr, trace r = DirectMessage x :: tr)
    ∧ (length (List.filter is_dm (trace r)) ≤ 1)%nat
    ∧ (truthy acc = false → List.filter is_dm (trace r) = [])).
  { intros r ->. cbn. split; [|split; [lia | done]].
    intros x Hin. apply elem_of_cons in Hin as [Heq | Hin]; [discriminate Heq|].
    by apply elem_of_nil in Hin. }
  destruct (truthy acc) eqn:Hacc.
  - destruct acc as [a|]; [|discriminate Hacc]. cbn [truthy] in Hacc. cbn [default].
    apply negb_true_iff, String.eqb_neq in Hacc.
    destruct o as [dm ack restore enable log refusal]. cbn [go_dm go_ack go_restore go_enable
      go_log go_refusal].
    unfold try_except, bind, attempt, raise, restore_step, on_account_manager, bind, raise.
    destruct dm, ack, restore, enable, log; cbn;
      (split; [|split; [lia | discriminate]]);
      intros x Hin;
      (apply elem_of_cons in Hin as [Heq | Hin];
       [injection Heq as ->; split; [reflexivity|]; split; [exact Hacc | by eexists]|]);
      repeat (apply elem_of_cons in Hin as [Heq | Hin]; [discriminate Heq|]);
      by apply elem_of_nil in Hin.
  - apply Hno. unfold attempt. by destruct (go_refusal o).
Qed.

(** X10. /getacc keeps to the account manager: the version cache, the
    refresh cooldowns and the status counter are the same after the
    handler as before, on every path. *)
Theorem getacc_frame (st : Bot) (uid : Z) (now : Q) (dm ack : option exn) :
  let done := get_account_cmd uid now dm ack st in
  roblox_version (final done) = roblox_version st
  ∧ refresh_cooldowns (final done) = refresh_cooldowns st
  ∧ current_loop (final done) = current_loop st.
Proof.
  intros done. subst done.
  destruct (get_account uid now (account_manager st)) as [[acc msg] am1] eqn:Hget.
  rewrite (get_account_cmd_run uid now dm ack st _ _ _ Hget).
  destruct (truthy acc); [destruct (first_failure dm ack)|]; done.
Qed.

(** ** The status loop, turn after turn *)

(** What the entry at an index shows does not depend on the counter. *)
Lemma status_message_counter (i n : nat) (provider : Bot → string) (st : Bot) :
  status_messages !! i = Some provider → provider (set_current_loop n st) = provider st.
Proof.
  destruct i as [|[|[|[|i]]]]; cbn; intros [= <-]; reflexivity.
Qed.


Lemma update_status_awaits_complete : update_status = update_status_awaits TurnOk.
Proof. reflexivity. Qed.



End Handlers.

(** ** Runs on concrete states *)

(** C1 at a concrete input: a fresh bot, requester 7 at 1000 s (the
    fetch fails) and again at 1030 s. *)
Lemma refresh_twice_one_fetch_witness :
  let st := startup ∅ [] in
  let first := refresh_version (λ _, "stock") (λ _, "version") true 7 1000 NetFail None st in
  let second := refresh_version (λ _, "stock") (λ _, "version") true 7 1030 NetFail None (final first) in
  refresh_permitted st 7 1000
  ∧ (1030 - 1000 < REFRESH_COOLDOWN)%Q
  ∧ fetches (trace first ++ trace second) = 1%nat
  ∧ final second = final first.
Proof.
  assert (H1 : refresh_permitted (startup ∅ []) 7 1000) by (vm_compute; discriminate).
  assert (H2 : (1030 - 1000 < REFRESH_COOLDOWN)%Q) by reflexivity.
  pose proof (refresh_twice_one_fetch (λ _, "stock") (λ _, "version")
                (startup ∅ []) 7 1000 1030 NetFail NetFail None None H1 H2) as H.
  cbv zeta in *. destruct H as (Ha & _ & _ & _ & Hb). auto.
Defined.

(** C3 at a concrete input: the fetch fails, the entry is set all the same. *)
Lemma refresh_attempt_sets_cooldown_witness :
  let st := startup ∅ [] in
  let done := refresh_version (λ _, "stock") (λ _, "version") true 7 1000 NetFail None st in
  refresh_permitted st 7 1000
  ∧ refresh_cooldowns (final done) = <[7 := 1000%Q]> (refresh_cooldowns st)
  ∧ roblox_version (final done) = roblox_version st.
Proof.
  assert (H1 : refresh_permitted (startup ∅ []) 7 1000) by (vm_compute; discriminate).
  pose proof (refresh_attempt_sets_cooldown (λ _, "stock") (λ _, "version")
                (startup ∅ []) 7 1000 NetFail None H1) as H.
  cbv zeta in *. destruct H as (_ & Ha & _ & Hb & _). auto.
Defined.

(** C9 at a concrete input. *)
Lemma first_refresh_not_refused_witness :
  let st := startup ∅ [] in
  refresh_cooldowns st !! 7 = None
  ∧ (REFRESH_COOLDOWN <= 1000)%Q
  ∧ fetches (trace (refresh_version (λ _, "stock") (λ _, "version") true 7 1000 NetFail None st))
    = 1%nat.
Proof.
  assert (H1 : refresh_cooldowns (startup ∅ []) !! 7 = None) by reflexivity.
  assert (H2 : (REFRESH_COOLDOWN <= 1000)%Q) by (vm_compute; discriminate).
  pose proof (first_refresh_not_refused (λ _, "stock") (λ _, "version")
                (startup ∅ []) 7 1000 H1 H2) as [_ H].
  cbv zeta in *. destruct (H NetFail None) as (Ha & _). auto.
Defined.

(** A bot that has fetched version-abc for requester 7 at 1000 s. *)
Lemma refresh_blocked_reply_witness :
  let st := final (refresh_version (λ _, "stock") (λ _, "version") true 7 1000
                     (NetOk "version-abc" None 1000) None (startup ∅ [])) in
  let done := refresh_version (λ _, "stock") (λ _, "version") true 7 1030 NetFail None st in
  refresh_blocked st 7 1030
  ∧ trace done = [Reply (CooldownLeft (round1 (REFRESH_COOLDOWN - (1030 - 1000))))]
  ∧ final done = st.
Proof.
  cbv zeta.
  set (st := final (refresh_version (λ _, "stock") (λ _, "version") true 7 1000
                      (NetOk "version-abc" None 1000) None (startup ∅ []))).
  assert (H1 : refresh_blocked st 7 1030) by reflexivity.
  pose proof (refresh_blocked_reply (λ _, "stock") (λ _, "version") st 7 1030 NetFail None H1) as H.
  cbv zeta in H. destruct H as (Ha & _ & _ & Hb & _). auto.
Defined.

(** C7, as stated, fails: requester 7 refreshed at 1000 s and asks again
    at 1030 s; the reply is the cooldown text and shows no version. *)
Lemma cooldown_reply_shows_no_snapshot :
  ¬ cooldown_reply_returns_snapshot (λ _, "stock") (λ _, "version")
      (final (refresh_version (λ _, "stock") (λ _, "version") true 7 1000
                (NetOk "version-abc" None 1000) None (startup ∅ [])))
      7 1030 NetFail None.
Proof.
  intros H.
  specialize (H eq_refl (mkSnapshot "version-abc" None 1000) eq_refl).
  vm_compute in H. inversion H.
Qed.

(** A refresh on the tick that shows the version: the presence is
    updated at once, and a failure of that update is only a warning. *)
Example scenario_presence_fails :
  let st := set_current_loop 3 (startup ∅ []) in
  let done := refresh_version (λ _, "stock") (λ _, "version") true 7 1000
                (NetOk "version-abc" (Some "2025-01-01") 1000) (Some (DiscordError 500)) st in
  outcome done = Returned tt
  ∧ trace done = [NetworkFetch; Reply (VersionRefreshed "version-abc" "2025-01-01");
                  Presence "version"; Warn].
Proof. split; reflexivity. Qed.

(** [round(x, 1)] on a few readings: 29.96 gives 30.0, and the ties 0.25
    and 0.35 go to the even tenth. *)
Example round1_samples :
  (round1 (2996 # 100) == 30)%Q
  ∧ (round1 (25 # 100) == 2 # 10)%Q
  ∧ (round1 (35 # 100) == 4 # 10)%Q.
Proof. repeat split. Qed.

(** C4 at a concrete input: "A1" is restored in front of "A2" and the
    next requester gets it. *)
Lemma restore_then_get_account_witness :
  let am := AccountManager_init 300 ["A2"] in
  cooldown_satisfied (restore_account "A1" am) 2 1000
  ∧ load_accounts (restore_account "A1" am) = ["A1"; "A2"]
  ∧ (get_account 2 1000 (restore_account "A1" am)).1 = (Some "A1", MsgOk).
Proof.
  assert (H1 : cooldown_satisfied (restore_account "A1" (AccountManager_init 300 ["A2"])) 2 1000).
  { intros last Hlast. discriminate Hlast. }
  pose proof (restore_then_get_account (AccountManager_init 300 ["A2"]) "A1" 2 1000 H1) as H.
  cbv zeta. destruct H as (Ha & _ & Hb & _). auto.
Defined.

(** C5 at a concrete input: requester 1 checks out "A1" at 1000 s, the
    direct message fails, and the entry of requester 1 is 1000. *)
Lemma failed_delivery_keeps_cooldown_witness :
  let st := startup ∅ ["A1"; "A2"] in
  let am1 := mkAccountManager ["A2"] {[ 1 := 1000%Q ]} 300 in
  let done := get_account_cmd 1 1000 (Some (DiscordError 403)) None st in
  get_account 1 1000 (account_manager st) = ((Some "A1", MsgOk), am1)
  ∧ "A1" ≠ ""
  ∧ first_failure (Some (DiscordError 403)) None = Some (DiscordError 403)
  ∧ cooldowns (account_manager (final done)) !! 1 = Some 1000%Q
  ∧ load_accounts (account_manager (final done)) = ["A1"; "A2"].
Proof.
  assert (H1 : get_account 1 1000 (account_manager (startup ∅ ["A1"; "A2"]))
               = ((Some "A1", MsgOk), mkAccountManager ["A2"] {[ 1 := 1000%Q ]} 300))
    by reflexivity.
  assert (H2 : "A1" ≠ "") by discriminate.
  assert (H3 : first_failure (Some (DiscordError 403)) None = Some (DiscordError 403))
    by reflexivity.
  pose proof (failed_delivery_keeps_cooldown (startup ∅ ["A1"; "A2"]) 1 1000
                (Some (DiscordError 403)) None (DiscordError 403) "A1" MsgOk _ H1 H2 H3) as H.
  cbv zeta in *. destruct H as (_ & _ & _ & Ha & Hb & _). auto 10.
Defined.

(** C10 at a concrete input: the direct message to requester 1 fails,
    and so does the [Enable DMs!] reply after it; the handler ends in
    the reply's exception, with "A1" back at the front. *)
Lemma failed_delivery_restores_account_witness :
  let st := startup ∅ ["A1"; "A2"] in
  let am1 := mkAccountManager ["A2"] {[ 1 := 1000%Q ]} 300 in
  let o := mkGetaccOutcomes (Some (DiscordError 403)) None Restored (Some (DiscordError 404))
             None None in
  let done := get_account_cmd_awaits 1 1000 o st in
  get_account 1 1000 (account_manager st) = ((Some "A1", MsgOk), am1)
  ∧ "A1" ≠ ""
  ∧ go_dm o = Some (DiscordError 403)
  ∧ go_restore o = Restored
  ∧ account_manager (final done) = restore_account "A1" am1
  ∧ accounts_file (account_manager (final done)) = ["A1"; "A2"]
  ∧ outcome done = Raised (DiscordError 404).
Proof.
  assert (H1 : get_account 1 1000 (account_manager (startup ∅ ["A1"; "A2"]))
               = ((Some "A1", MsgOk), mkAccountManager ["A2"] {[ 1 := 1000%Q ]} 300))
    by reflexivity.
  assert (H2 : "A1" ≠ "") by discriminate.
  pose proof (failed_delivery_restores_account (startup ∅ ["A1"; "A2"]) 1 1000
                (mkGetaccOutcomes (Some (DiscordError 403)) None Restored
                   (Some (DiscordError 404)) None None)
                (DiscordError 403) "A1" MsgOk _ H1 H2 eq_refl eq_refl) as H.
  cbv zeta in *. destruct H as (_ & Ha & _ & Hb & _ & _ & _ & _ & Hc).
  destruct (Hc (DiscordError 404) eq_refl) as [Hd _]. auto 10.
Defined.

(** Three requesters, two accounts. *)
Example scenario_three_requesters :
  let am := AccountManager_init 300 ["A1"; "A2"] in
  NoDup (load_accounts am)
  ∧ NoDup (handed_out (get_accounts [(1, 1000%Q); (2, 1001%Q); (3, 1002%Q)] am).1).
Proof.
  assert (H1 : NoDup (load_accounts (AccountManager_init 300 ["A1"; "A2"]))).
  { cbn. repeat constructor; rewrite ?elem_of_cons, ?elem_of_nil; intros H;
      repeat destruct H as [H|H]; try discriminate H; exact H. }
  pose proof (get_accounts_at_most_once [(1, 1000%Q); (2, 1001%Q); (3, 1002%Q)]
                (AccountManager_init 300 ["A1"; "A2"]) H1) as H.
  cbv zeta in *. destruct H as (_ & Ha & _). auto.
Qed.

(** The scenario of the spec: the pool is "A1", "A2" and the window is
    300 s. Requester 1 is served "A1"; asking again within the window is
    refused and leaves the pool alone; after "A1" is restored, requester
    2 is served "A1" and the pool is "A2". *)
Example scenario_restore :
  let am0 := AccountManager_init 300 ["A1"; "A2"] in
  let '((acc1, _), am1) := get_account 1 1000 am0 in
  let '((acc2, _), am2) := get_account 1 1100 am1 in
  let am3 := restore_account "A1" am2 in
  let '((acc3, _), am4) := get_account 2 1200 am3 in
  acc1 = Some "A1" ∧ load_accounts am1 = ["A2"]
  ∧ acc2 = None ∧ load_accounts am2 = ["A2"]
  ∧ load_accounts am3 = ["A1"; "A2"]
  ∧ acc3 = Some "A1" ∧ load_accounts am4 = ["A2"].
Proof. vm_compute. repeat split. Qed.

(** C2. At-most-once delivery is broken by the handler on a pool without
    repeats. The pool is "A1", "A2". Requester 1 asks at 1000 s: the
    direct message with "A1" is delivered, then the acknowledgement
    raises, and the except block of bot.py 159-165 puts "A1" back at the
    front, whatever its reply and its log entry answer. Requester 2
    asks at 1001 s and every call completes: [get_account] returns "A1"
    once more and "A1" is delivered to requester 2 as well. *)
Theorem delivered_account_handed_out_again (enable log : option exn) :
  let st := startup ∅ ["A1"; "A2"] in
  let first := get_account_cmd_awaits 1 1000
                 (mkGetaccOutcomes None (Some (DiscordError 404)) Restored enable log None) st in
  let second := get_account_cmd_awaits 2 1001
                  (mkGetaccOutcomes None None Restored None None None) (final first) in
  NoDup (load_accounts (account_manager st))
  ∧ (get_account 1 1000 (account_manager st)).1.1 = Some "A1"
  ∧ (∃ tr, trace first = DirectMessage "A1" :: Reply SentViaDM :: tr)
  ∧ load_accounts (account_manager (final first)) = ["A1"; "A2"]
  ∧ (get_account 2 1001 (account_manager (final first))).1.1 = Some "A1"
  ∧ trace second = [DirectMessage "A1"; Reply SentViaDM]
  ∧ outcome second = Returned tt.
Proof.
  cbv zeta. split.
  { cbn. repeat constructor; rewrite ?elem_of_cons, ?elem_of_nil; intros H;
      repeat destruct H as [H|H]; try discriminate H; exact H. }
  destruct enable, log; repeat split; by eexists.
Qed.

(** The acknowledgement failing after a delivered message takes the same
    path: the account is both sent and back in the pool. *)
Example scenario_ack_fails :
  let done := get_account_cmd 1 1000 None (Some (DiscordError 500)) (startup ∅ ["A1"]) in
  trace done = [DirectMessage "A1"; Reply SentViaDM; Reply EnableDMs; LogRestored 1]
  ∧ load_accounts (account_manager (final done)) = ["A1"].
Proof. split; reflexivity. Qed.

(** ** Configuration *)

(** C6 (as the code does it). The checkout cooldown and the TTL of the
    version cache are configurable, each with a default: key
    [getAccCooldown] sets the checkout cooldown, which is 300 without
    the key (bot.py 28, 77), and the TTL is set by its key and is its
    default without it. The force-refresh cooldown is not configurable:
    it is 60 under every configuration (bot.py 199). *)
Theorem timing_parameters (ttl_key : string) (ttl_default : Q) :
  configurable checkout_window
  ∧ (∀ config v, checkout_window (<["getAccCooldown" := v]> config) = v)
  ∧ (∀ config, config !! "getAccCooldown" = None → checkout_window config = 300%Q)
  ∧ configurable (version_cache_ttl ttl_key ttl_default)
  ∧ (∀ config, config !! ttl_key = None →
       version_cache_ttl ttl_key ttl_default config = ttl_default)
  ∧ ¬ configurable refresh_window
  ∧ (∀ config, refresh_window config = 60%Q).
Proof.
  assert (Hset : ∀ config v, checkout_window (<["getAccCooldown" := v]> config) = v).
  { intros config v. unfold checkout_window, startup, AccountManager_init, GETACC_COOLDOWN.
    cbn [account_manager getacc_cooldown]. by rewrite lookup_insert_eq. }
  split; [by exists "getAccCooldown"|]. split; [exact Hset|]. split.
  { intros config Hnone. unfold checkout_window, startup, AccountManager_init, GETACC_COOLDOWN.
    cbn [account_manager getacc_cooldown]. by rewrite Hnone. }
  split.
  { exists ttl_key. intros config v. unfold version_cache_ttl. by rewrite lookup_insert_eq. }
  split.
  { intros config Hnone. unfold version_cache_ttl. by rewrite Hnone. }
  split; [|reflexivity].
  intros [key Hkey]. specialize (Hkey ∅ 10%Q). discriminate Hkey.
Qed.

(** C6, as stated, fails: no key of the configuration sets the
    force-refresh cooldown. *)
Lemma refresh_window_not_configurable :
  ¬ (configurable checkout_window ∧ configurable refresh_window).
Proof.
  intros [_ [key Hkey]]. specialize (Hkey ∅ 10%Q). discriminate Hkey.
Qed.

(** ** Dictionaries *)

Lemma dict_get_set_eq {V} (k : string) (v : V) (d : dict V) :
  dict_get k (dict_set k v d) = Some v.
Proof.
  induction d as [|[k' v'] d IH]; cbn; [by rewrite String.eqb_refl|].
  destruct (String.eqb k k') eqn:Hk; cbn; rewrite Hk; [reflexivity | exact IH].
Qed.

Lemma dict_get_set_ne {V} (k k' : string) (v : V) (d : dict V) :
  k ≠ k' → dict_get k' (dict_set k v d) = dict_get k' d.
Proof.
  intros Hne. induction d as [|[k0 v0] d IH]; cbn.
  - assert (String.eqb k' k = false) as -> by (apply String.eqb_neq; congruence). reflexivity.
  - destruct (String.eqb k k0) eqn:Hk; cbn; [|by rewrite IH].
    apply String.eqb_eq in Hk. subst k0.
    assert (String.eqb k' k = false) as -> by (apply String.eqb_neq; congruence). reflexivity.
Qed.

Lemma dict_get_elem_of {V} (k : string) (v : V) (d : dict V) :
  dict_get k d = Some v → (k, v) ∈ d.
Proof.
  induction d as [|[k' v'] d IH]; cbn; [discriminate|].
  destruct (String.eqb k k') eqn:Hk.
  - apply String.eqb_eq in Hk. intros [= ->]. subst. apply list_elem_of_here.
  - intros H. apply list_elem_of_further. by apply IH.
Qed.

Lemma dict_get_None {V} (k : string) (d : dict V) :
  dict_get k d = None ↔ k ∉ d.*1.
Proof.
  induction d as [|[k' v'] d IH]; cbn.
  - split; [intros _ Hin; by apply elem_of_nil in Hin | done].
  - destruct (String.eqb k k') eqn:Hk.
    + apply String.eqb_eq in Hk. subst. split; [discriminate|].
      intros Hn. exfalso. apply Hn. apply list_elem_of_here.
    + apply String.eqb_neq in Hk. rewrite IH, not_elem_of_cons.
      split; [intros H; split; [exact Hk | exact H] | intros [_ H]; exact H].
Qed.

(** The keys after [d[k] = v]: as before, with a new key at the end. *)
Lemma dict_set_keys {V} (k : string) (v : V) (d : dict V) :
  (dict_set k v d).*1 = match dict_get k d with Some _ => d.*1 | None => d.*1 ++ [k] end.
Proof.
  induction d as [|[k' v'] d IH]; cbn; [reflexivity|].
  destruct (String.eqb k k') eqn:Hk; cbn; [reflexivity|].
  rewrite IH. by destruct (dict_get k d).
Qed.

Lemma dict_set_NoDup {V} (k : string) (v : V) (d : dict V) :
  NoDup d.*1 → NoDup (dict_set k v d).*1.
Proof.
  intros Hnd. rewrite dict_set_keys. destruct (dict_get k d) eqn:Hk; [exact Hnd|].
  apply dict_get_None in Hk. apply NoDup_app. split; [exact Hnd|]. split.
  - intros x Hx Hin. apply list_elem_of_singleton in Hin. by subst.
  - apply NoDup_singleton.
Qed.

(** ** Command analytics *)

(** The user's dictionary after the update of bot.py 108-114. *)
Lemma record_usage_user (user cmd_name stamp : string) (data : dict (dict usage)) :
  let cmds := default [] (dict_get user data) in
  dict_get user (record_usage user cmd_name stamp data)
  = Some (dict_set cmd_name
            (mkUsage (default 0 (count <$> dict_get cmd_name cmds) + 1) (Some stamp)) cmds).
Proof.
  intros cmds. subst cmds. unfold record_usage. rewrite dict_get_set_eq. f_equal.
  destruct (dict_get user data) as [cmds|] eqn:Huser; cbn [default].
  - rewrite Huser. cbn [default].
    destruct (dict_get cmd_name cmds) as [info|] eqn:Hcmd; cbn.
    + rewrite !Hcmd. cbn. reflexivity.
    + rewrite !Hcmd, dict_get_set_eq. cbn.
      clear. induction cmds as [|[k v] cmds IH]; cbn; [by rewrite String.eqb_refl|].
      destruct (String.eqb cmd_name k) eqn:Hk; cbn; rewrite Hk; [reflexivity|]. by rewrite IH.
  - rewrite dict_get_set_eq. cbn. by rewrite String.eqb_refl.
Qed.

Lemma record_usage_other_user (user other cmd_name stamp : string)
    (data : dict (dict usage)) :
  other ≠ user →
  dict_get other (record_usage user cmd_name stamp data) = dict_get other data.
Proof.
  intros Hne. unfold record_usage. rewrite dict_get_set_ne by congruence.
  destruct (dict_get user data); [reflexivity|]. by rewrite dict_get_set_ne by congruence.
Qed.

Lemma record_usage_counts_one_aux (user cmd_name stamp : string) (data : dict (dict usage)) :
  ∃ cmds, dict_get user (record_usage user cmd_name stamp data) = Some cmds
    ∧ dict_get cmd_name cmds
      = Some (mkUsage (default 0 (count <$> usage_of user cmd_name data) + 1) (Some stamp)).
Proof.
  eexists. split; [apply record_usage_user|].
  rewrite dict_get_set_eq. unfold usage_of. by destruct (dict_get user data).
Qed.

(** X12. A completed command adds one to the count of that user and
    that command (starting from 0 when the entry is new), stamps it
    with the time of this use, and leaves the entry of every other
    user-command pair as it was. *)
Theorem record_usage_counts_one (user cmd_name stamp : string) (data : dict (dict usage)) :
  usage_of user cmd_name (record_usage user cmd_name stamp data)
  = Some (mkUsage (default 0 (count <$> usage_of user cmd_name data) + 1) (Some stamp))
  ∧ (∀ u c, (u, c) ≠ (user, cmd_name) →
       usage_of u c (record_usage user cmd_name stamp data) = usage_of u c data).
Proof.
  split.
  - unfold usage_of. rewrite record_usage_user. cbn. rewrite dict_get_set_eq.
    by destruct (dict_get user data).
  - intros u c Hne. unfold usage_of.
    destruct (decide (u = user)) as [-> | Hu].
    + assert (Hc : cmd_name ≠ c) by congruence.
      rewrite record_usage_user. cbn. rewrite dict_get_set_ne by done.
      by destruct (dict_get user data).
    + by rewrite record_usage_other_user.
Qed.

(** X13. Recording a use never removes or reorders anything: the users
    stay in their order, with a first-time user added at the end, and
    so do the commands of the user; keys that were distinct stay
    distinct. *)
Theorem record_usage_keeps_order (user cmd_name stamp : string) (data : dict (dict usage)) :
  let cmds := default [] (dict_get user data) in
  (record_usage user cmd_name stamp data).*1
  = match dict_get user data with Some _ => data.*1 | None => data.*1 ++ [user] end
  ∧ (default [] (dict_get user (record_usage user cmd_name stamp data))).*1
    = match dict_get cmd_name cmds with Some _ => cmds.*1 | None => cmds.*1 ++ [cmd_name] end
  ∧ (NoDup data.*1 → NoDup (record_usage user cmd_name stamp data).*1)
  ∧ (NoDup cmds.*1 →
       NoDup (default [] (dict_get user (record_usage user cmd_name stamp data))).*1).
Proof.
  intros cmds.
  assert (Hkeys : (record_usage user cmd_name stamp data).*1
    = match dict_get user data with Some _ => data.*1 | None => data.*1 ++ [user] end).
  { unfold record_usage. rewrite dict_set_keys.
    destruct (dict_get user data) as [c|] eqn:Huser.
    - by rewrite Huser.
    - rewrite dict_get_set_eq. by rewrite dict_set_keys, Huser. }
  assert (Hcmds : (default [] (dict_get user (record_usage user cmd_name stamp data))).*1
    = match dict_get cmd_name cmds with Some _ => cmds.*1 | None => cmds.*1 ++ [cmd_name] end).
  { rewrite record_usage_user. cbn [default]. fold cmds. apply dict_set_keys. }
  split; [exact Hkeys|]. split; [exact Hcmds|]. split.
  - intros Hnd. rewrite Hkeys. destruct (dict_get user data) eqn:Huser; [exact Hnd|].
    apply dict_get_None in Huser. apply NoDup_app. split; [exact Hnd|]. split.
    + intros x Hx Hin. apply list_elem_of_singleton in Hin. by subst.
    + apply NoDup_singleton.
  - intros Hnd. rewrite Hcmds. destruct (dict_get cmd_name cmds) eqn:Hcmd; [exact Hnd|].
    apply dict_get_None in Hcmd. apply NoDup_app. split; [exact Hnd|]. split.
    + intros x Hx Hin. apply list_elem_of_singleton in Hin. by subst.
    + apply NoDup_singleton.
Qed.

Lemma user_uses_set (k : string) (v : usage) (cmds : dict usage) :
  user_uses (dict_set k v cmds)
  = (user_uses cmds - default 0 (count <$> dict_get k cmds) + count v)%Z.
Proof.
  unfold user_uses. induction cmds as [|[k' v'] cmds IH]; cbn; [lia|].
  destruct (String.eqb k k'); cbn; [lia|]. rewrite IH. lia.
Qed.

Lemma total_uses_set (u : string) (cmds : dict usage) (data : dict (dict usage)) :
  total_uses (dict_set u cmds data)
  = (total_uses data - default 0 (user_uses <$> dict_get u data) + user_uses cmds)%Z.
Proof.
  unfold total_uses. induction data as [|[u' c'] data IH]; cbn -[user_uses]; [lia|].
  destruct (String.eqb u u'); cbn -[user_uses]; [lia|]. rewrite IH. lia.
Qed.

Lemma record_usage_total (user cmd_name stamp : string) (data : dict (dict usage)) :
  total_uses (record_usage user cmd_name stamp data) = (total_uses data + 1)%Z.
Proof.
  unfold record_usage. cbv zeta.
  destruct (dict_get user data) as [cmds|] eqn:Huser.
  - rewrite Huser. cbn [default id].
    destruct (dict_get cmd_name cmds) as [info|] eqn:Hcmd.
    + rewrite Hcmd. cbn [default id count last_used].
      rewrite total_uses_set, user_uses_set, Huser, Hcmd. cbn. lia.
    + rewrite dict_get_set_eq. cbn [default id count last_used].
      rewrite total_uses_set, !user_uses_set, Huser, dict_get_set_eq, Hcmd. cbn. lia.
  - rewrite !dict_get_set_eq. cbn -[total_uses user_uses].
    rewrite String.eqb_refl. cbn -[total_uses user_uses].
    rewrite !total_uses_set, dict_get_set_eq, Huser. cbn. lia.
Qed.

Lemma completion_data (config : gmap string Q) (channel : bool) (sent : option exn)
    (saved : save_outcome) (user cmd_name stamp : string) (namespace : list (string * string)) (st : Analytics) :
  analytics_data
    (on_app_command_completion config channel sent saved user cmd_name stamp namespace st).1
  = record_usage user cmd_name stamp (analytics_data st).
Proof.
  unfold on_app_command_completion. destruct saved; [|reflexivity].
  by destruct (send_log _ _ _ _ _) as [[]].
Qed.

(** X14. The counts add up to the number of completed commands: after
    any run of completions the sum of all counts has grown by the
    number of completions, whether or not saving or logging failed
    along the way. *)
Theorem completions_total (config : gmap string Q) (channel : bool) (cs : list completion)
    (st : Analytics) :
  total_uses (analytics_data (completions config channel cs st))
  = (total_uses (analytics_data st) + Z.of_nat (length cs))%Z.
Proof.
  unfold completions. revert st. induction cs as [|c cs IH]; intros st; [cbn; lia|].
  cbn [foldl]. rewrite IH, completion_data, record_usage_total. cbn [length]. lia.
Qed.

(** X15. What a completed command leaves on disk. The use is recorded
    in memory on every path. When the save goes through, the file holds
    exactly the data in memory, so loading it gives them back. When the
    save raises, the data in memory are still the updated ones while
    the file is whatever the failed write left; the only output is a
    warning and nothing is logged. A log that fails leaves a warning
    too, and undoes nothing. *)
Theorem completion_persistence (config : gmap string Q) (channel : bool)
    (sent : option exn) (saved : save_outcome) (user cmd_name stamp : string)
    (namespace : list (string * string)) (st : Analytics) :
  let r := on_app_command_completion config channel sent saved user cmd_name stamp namespace st in
  analytics_data r.1 = record_usage user cmd_name stamp (analytics_data st)
  ∧ (saved = Saved →
       analytics_file r.1 = Some (analytics_data r.1)
       ∧ load_analytics (analytics_file r.1) = analytics_data r.1
       ∧ (sent = None → Warned ∉ r.2)
       ∧ (Warned ∈ r.2 → r.2 = [Printed (UsedCommand user cmd_name
                                   (if negb (String.eqb (render_params namespace) "")
                                    then Some (render_params namespace) else None));
                                 Embedded Green
                                   (UsedCommand user cmd_name
                                      (if negb (String.eqb (render_params namespace) "")
                                       then Some (render_params namespace) else None));
                                 Warned]))
  ∧ (∀ e remains, saved = SaveFailed e remains →
       analytics_file r.1 = remains ∧ r.2 = [Warned]).
Proof.
  intros r. subst r. split; [apply completion_data|]. split.
  - intros ->. unfold on_app_command_completion, send_log.
    destruct (negb (String.eqb (render_params namespace) ""));
      destruct (truthy_num _), channel, sent; cbn.
    all: split; [reflexivity|]; split; [reflexivity|]; split.
    all: try (intros Hs; try discriminate Hs; intros Hin;
              repeat (apply elem_of_cons in Hin as [Heq | Hin]; [discriminate Heq|]);
              by apply elem_of_nil in Hin).
    all: intros Hin; try reflexivity;
      repeat (apply elem_of_cons in Hin as [Heq | Hin]; [discriminate Heq|]);
      by apply elem_of_nil in Hin.
  - by intros e remains ->.
Qed.

Lemma concat_ne (sep x : string) (l : list string) :
  x ≠ "" → String.concat sep (x :: l) ≠ "".
Proof.
  intros Hx. destruct x as [|a x]; [done|]. destruct l; cbn; discriminate.
Qed.

(** X16. The usage log shows the parameters of the command exactly when
    the interaction has one whose name does not start with an
    underscore; parameters with such names never reach the log. *)
Theorem usage_log_params (config : gmap string Q) (channel : bool) (sent : option exn)
    (user cmd_name stamp : string) (namespace : list (string * string)) (st : Analytics) :
  head (on_app_command_completion config channel sent Saved user cmd_name stamp namespace st).2
  = Some (Printed (UsedCommand user cmd_name
                     (if existsb shown_param namespace
                      then Some (render_params namespace) else None)))
  ∧ render_params namespace = render_params (List.filter shown_param namespace)
  ∧ (∀ hidden, forallb (λ item, negb (shown_param item)) hidden = true →
       render_params (hidden ++ namespace) = render_params namespace).
Proof.
  split; [|split].
  - assert (Hp : negb (String.eqb (render_params namespace) "") = existsb shown_param namespace).
    { unfold render_params. induction namespace as [|item ns IH]; [reflexivity|].
      cbn [List.filter existsb]. destruct (shown_param item); cbn [orb]; [|exact IH].
      cbn [map]. apply negb_true_iff, String.eqb_neq, concat_ne.
      destruct item as [k v]. cbn. destruct k; discriminate. }
    unfold on_app_command_completion. rewrite Hp.
    unfold send_log.
    destruct (existsb shown_param namespace), (truthy_num _), channel, sent; reflexivity.
  - unfold render_params. f_equal. f_equal.
    induction namespace as [|item ns IH]; [reflexivity|].
    cbn. destruct (shown_param item) eqn:Hs; cbn; rewrite ?Hs; by rewrite <- IH.
  - intros hidden Hh. unfold render_params. f_equal. f_equal.
    induction hidden as [|item hs IH]; [reflexivity|].
    cbn in Hh. apply andb_prop in Hh as [Hi Hh]. apply negb_true_iff in Hi.
    cbn. rewrite Hi. by apply IH.
Qed.

(** ** Logging *)

(** X17. Every log entry is printed first. It goes to the log channel
    only when the configured channel id is there and not zero and the
    channel is found; only then can [send_log] raise, and it raises
    what the send raised. The embed is red for ["error"], green for
    ["success"], orange for ["warning"] and blue for anything else. *)
Theorem send_log_channel_gate (config : gmap string Q) (channel : bool) (sent : option exn)
    (message : log_msg) (log_type : string) :
  let r := send_log config channel sent message log_type in
  let open := truthy_num (LOG_CHANNEL_ID config) && channel in
  head r.2 = Some (Printed message)
  ∧ (open = false → r = (Returned tt, [Printed message]))
  ∧ (open = true → ∃ c, r.2 = [Printed message; Embedded c message]
       ∧ (log_type ≠ "error" → log_type ≠ "success" → log_type ≠ "warning" → c = Blue)
       ∧ (log_type = "error" → c = Red)
       ∧ (log_type = "success" → c = Green)
       ∧ (log_type = "warning" → c = Orange))
  ∧ (∀ e, r.1 = Raised e ↔ open = true ∧ sent = Some e)
  ∧ (config !! "logChannelId" = None → open = false)
  ∧ (config !! "logChannelId" = Some 0%Q → open = false).
Proof.
  intros r open. subst r open. unfold send_log, LOG_CHANNEL_ID.
  destruct (truthy_num (config !! "logChannelId")) eqn:Hid, channel; cbn [andb].
  - split; [by destruct sent|]. split; [discriminate|]. split; [|split; [|split]].
    + intros _. eexists. split; [by destruct sent|].
      destruct (String.eqb log_type "error") eqn:H1;
        [|destruct (String.eqb log_type "success") eqn:H2;
          [|destruct (String.eqb log_type "warning") eqn:H3]];
        rewrite ?String.eqb_eq, ?String.eqb_neq in *; subst;
        repeat split; intros; subst; done.
    + intros e. destruct sent as [e'|]; cbn; split.
      * by intros [= ->].
      * by intros [_ [= ->]].
      * discriminate.
      * by intros [_ ?].
    + intros Hnone. rewrite Hnone in Hid. discriminate Hid.
    + intros Hzero. rewrite Hzero in Hid. discriminate Hid.
  - repeat split; try done; try discriminate. by intros [? _].
  - repeat split; try done; try discriminate. by intros [? _].
  - repeat split; try done; try discriminate. by intros [? _].
Qed.

(** X18. The error handler logs the failure under the command's name,
    or under "Unknown" when the interaction has no command, as an
    error (red in the channel), and then tells the user. It raises only
    what the log's own send raised, and then the user is told nothing;
    a reply that fails is passed over. *)
Theorem global_command_error_reports (config : gmap string Q) (channel : bool)
    (sent : option exn) (user : string) (cmd_name : option string) (err_text : string) :
  let r := global_command_error config channel sent user cmd_name err_text in
  let entry := CommandFailed (default "Unknown" cmd_name) user err_text in
  head r.2 = Some (Printed entry)
  ∧ (∀ c m, Embedded c m ∈ r.2 → c = Red ∧ m = entry)
  ∧ (r.1 = Returned tt → last r.2 = Some (ErrorReply err_text))
  ∧ (∀ e, r.1 = Raised e →
       sent = Some e ∧ (ErrorReply err_text ∉ r.2)
       ∧ truthy_num (LOG_CHANNEL_ID config) && channel = true).
Proof.
  intros r entry. subst r entry. unfold global_command_error, send_log.
  destruct (truthy_num (LOG_CHANNEL_ID config)), channel; cbn [andb];
    [destruct sent as [e'|]|..]; cbn.
  all: split; [reflexivity|].
  all: split;
    [intros c m Hin;
     repeat (apply elem_of_cons in Hin as [Heq | Hin];
             [try discriminate Heq; by injection Heq as -> ->|]);
     by apply elem_of_nil in Hin|].
  all: split; [try done; discriminate|].
  all: intros e He; try discriminate He.
  injection He as ->. repeat split.
  intros Hin.
  repeat (apply elem_of_cons in Hin as [Heq | Hin]; [discriminate Heq|]).
  by apply elem_of_nil in Hin.
Qed.

(** ** The leaderboard *)

Lemma insert_desc_perm (x : board_row) (l : list board_row) : insert_desc x l ≡ₚ x :: l.
Proof.
  induction l as [|y l IH]; cbn; [reflexivity|].
  destruct (x.1.2 <? y.1.2)%Z; [|reflexivity]. rewrite IH. apply Permutation_swap.
Qed.

Lemma sort_desc_perm (l : list board_row) : sort_desc l ≡ₚ l.
Proof.
  induction l as [|x l IH]; cbn; [reflexivity|]. by rewrite insert_desc_perm, IH.
Qed.

Lemma insert_desc_sorted (x : board_row) (l : list board_row) :
  StronglySorted descending l → StronglySorted descending (insert_desc x l).
Proof.
  induction l as [|y l IH]; intros Hs; cbn.
  - apply StronglySorted_cons. split; [constructor | constructor].
  - apply StronglySorted_cons in Hs as [Hy Hl].
    destruct (x.1.2 <? y.1.2)%Z eqn:Hlt.
    + apply Z.ltb_lt in Hlt. apply StronglySorted_cons. split; [|by apply IH].
      rewrite insert_desc_perm. constructor; [unfold descending; lia | exact Hy].
    + apply Z.ltb_ge in Hlt. apply StronglySorted_cons. split.
      * constructor; [exact Hlt|].
        eapply Forall_impl; [exact Hy|]. unfold descending. intros z Hz. lia.
      * apply StronglySorted_cons. by split.
Qed.

Lemma sort_desc_sorted (l : list board_row) : StronglySorted descending (sort_desc l).
Proof.
  induction l as [|x l IH]; cbn; [constructor | by apply insert_desc_sorted].
Qed.

(** Among the rows of one count, the insertion puts the new row first. *)
Lemma insert_desc_filter (n : Z) (x : board_row) (l : list board_row) :
  filter (λ r : board_row, r.1.2 = n) (insert_desc x l)
  = filter (λ r : board_row, r.1.2 = n) (x :: l).
Proof.
  induction l as [|y l IH]; cbn [insert_desc]; [reflexivity|].
  destruct (x.1.2 <? y.1.2)%Z eqn:Hlt; [|reflexivity].
  apply Z.ltb_lt in Hlt.
  rewrite (filter_cons _ y), IH, !(filter_cons _ x), (filter_cons _ y).
  repeat case_decide; try reflexivity; lia.
Qed.

Lemma sort_desc_filter (n : Z) (l : list board_row) :
  filter (λ r : board_row, r.1.2 = n) (sort_desc l) = filter (λ r : board_row, r.1.2 = n) l.
Proof.
  induction l as [|x l IH]; [reflexivity|].
  cbn [sort_desc foldr]. fold (sort_desc l).
  by rewrite insert_desc_filter, !(filter_cons _ x), IH.
Qed.

Lemma board_ranks (k : nat) (l : list board_row) :
  (imap (λ i row, (S (k + i), row)) l).*1 = seq (S k) (length l)
  ∧ (imap (λ i row, (S (k + i), row)) l).*2 = l.
Proof.
  revert k. induction l as [|x l IH]; intros k; [done|].
  rewrite imap_cons. cbn [fmap list_fmap fst snd length seq]. rewrite Nat.add_0_r.
  destruct (IH (S k)) as [H1 H2].
  assert (Hext : imap ((λ i row, (S (k + i), row)) ∘ S) l
                 = imap (λ i (row : board_row), (S (S k + i), row)) l).
  { apply imap_ext. intros i y _. cbn. do 2 f_equal. lia. }
  rewrite Hext. split; f_equal; [exact H1 | exact H2].
Qed.

Lemma leaderboard_cmd_rows (command_name : string) (data : dict (dict usage))
    (rows : list (nat * board_row)) :
  leaderboard_cmd true command_name data = BoardRows command_name rows →
  leaderboard_of command_name data ≠ []
  ∧ rows.*2 = take 10 (sort_desc (leaderboard_of command_name data))
  ∧ rows.*1 = seq 1 (length rows).
Proof.
  unfold leaderboard_cmd. cbn [negb].
  destruct (leaderboard_of command_name data) as [|x l] eqn:Hb; [discriminate|].
  intros [= <-]. split; [discriminate|].
  destruct (board_ranks 0 (take 10 (sort_desc (x :: l)))) as [H1 H2].
  cbn [Nat.add] in H1, H2. split; [exact H2|].
  rewrite length_imap. exact H1.
Qed.

(** X19. The leaderboard shows between one and ten rows, as many as
    there are users of the command up to ten; they are numbered 1, 2,
    3, ... without gaps, and the counts never increase down the list. *)
Theorem leaderboard_shape (command_name : string) (data : dict (dict usage))
    (rows : list (nat * board_row)) :
  leaderboard_cmd true command_name data = BoardRows command_name rows →
  length rows = (length (leaderboard_of command_name data) `min` 10)%nat
  ∧ (1 ≤ length rows ≤ 10)%nat
  ∧ rows.*1 = seq 1 (length rows)
  ∧ StronglySorted descending rows.*2.
Proof.
  intros Hrows. apply leaderboard_cmd_rows in Hrows as (Hne & Hsnd & Hfst).
  assert (Hlen : length rows = (length (leaderboard_of command_name data) `min` 10)%nat).
  { rewrite <- (length_fmap snd rows), Hsnd, length_take, sort_desc_perm. lia. }
  split; [exact Hlen|]. split; [|split; [exact Hfst|]].
  - destruct (leaderboard_of command_name data); [done|]. cbn in Hlen. lia.
  - rewrite Hsnd.
    pose proof (sort_desc_sorted (leaderboard_of command_name data)) as Hs.
    rewrite <- (take_drop 10 (sort_desc _)) in Hs. by apply StronglySorted_app_1_l in Hs.
Qed.

(** X20. The rows are the top of the board: each row is a user of the
    command with that user's count and last use; a user of the command
    who is left out has a count no greater than any count shown; and
    with ten users or fewer nobody is left out. *)
Theorem leaderboard_top (command_name : string) (data : dict (dict usage))
    (rows : list (nat * board_row)) :
  leaderboard_cmd true command_name data = BoardRows command_name rows →
  (∀ row, row ∈ rows.*2 →
     ∃ cmds info, (row.1.1, cmds) ∈ data ∧ dict_get command_name cmds = Some info
                  ∧ row = (row.1.1, count info, last_used info))
  ∧ (∀ left shown, left ∈ leaderboard_of command_name data → left ∉ rows.*2 →
       shown ∈ rows.*2 → (left.1.2 <= shown.1.2)%Z)
  ∧ ((length (leaderboard_of command_name data) ≤ 10)%nat →
       rows.*2 ≡ₚ leaderboard_of command_name data).
Proof.
  intros Hrows. apply leaderboard_cmd_rows in Hrows as (Hne & Hsnd & Hfst).
  set (board := leaderboard_of command_name data) in *.
  assert (Hsplit : sort_desc board = rows.*2 ++ drop 10 (sort_desc board)).
  { by rewrite Hsnd, take_drop. }
  split; [|split].
  - intros row Hrow.
    assert (Hin : row ∈ board).
    { rewrite <- (sort_desc_perm board), Hsplit. apply elem_of_app. by left. }
    subst board. unfold leaderboard_of in Hin. apply list_elem_of_omap in Hin.
    destruct Hin as ([user cmds] & Hitem & Hget). cbn in Hget.
    destruct (dict_get command_name cmds) as [info|] eqn:Hinfo; [|discriminate].
    cbn in Hget. injection Hget as <-. by exists cmds, info.
  - intros left shown Hleft Hout Hshown.
    assert (Hin : left ∈ drop 10 (sort_desc board)).
    { rewrite <- (sort_desc_perm board), Hsplit in Hleft.
      apply elem_of_app in Hleft as [?|?]; done. }
    pose proof (sort_desc_sorted board) as Hs. rewrite Hsplit in Hs.
    apply (StronglySorted_app_1_elem_of _ _ _ shown left Hs Hshown Hin).
  - intros Hlen. rewrite Hsnd, take_ge; [apply sort_desc_perm|].
    by rewrite sort_desc_perm.
Qed.

(** X21. Equal counts keep their order: among the rows with one and the
    same count, the users come in the order in which they are in the
    analytics, that is in the order of their first recorded command. *)
Theorem leaderboard_ties_keep_order (command_name : string) (data : dict (dict usage))
    (rows : list (nat * board_row)) (n : Z) :
  leaderboard_cmd true command_name data = BoardRows command_name rows →
  filter (λ r : board_row, r.1.2 = n) rows.*2
  `prefix_of` filter (λ r : board_row, r.1.2 = n) (leaderboard_of command_name data).
Proof.
  intros Hrows. apply leaderboard_cmd_rows in Hrows as (Hne & Hsnd & Hfst).
  rewrite Hsnd, <- (sort_desc_filter n (leaderboard_of command_name data)).
  rewrite <- (take_drop 10 (sort_desc (leaderboard_of command_name data))) at 2.
  rewrite filter_app. by apply prefix_app_r.
Qed.

(** X22. What the handler answers: a caller who is not an administrator
    gets the refusal whatever the data; an administrator gets "no usage
    data" exactly when no user has the command, and rows otherwise. *)
Theorem leaderboard_answers (command_name : string) (data : dict (dict usage)) :
  leaderboard_cmd false command_name data = BoardAdminOnly
  ∧ (leaderboard_cmd true command_name data = BoardNoUsage command_name
     ↔ ∀ user cmds, (user, cmds) ∈ data → dict_get command_name cmds = None)
  ∧ ((∃ rows, leaderboard_cmd true command_name data = BoardRows command_name rows)
     ↔ ∃ user cmds, (user, cmds) ∈ data ∧ is_Some (dict_get command_name cmds)).
Proof.
  assert (Hempty : leaderboard_of command_name data = []
                   ↔ ∀ user cmds, (user, cmds) ∈ data → dict_get command_name cmds = None).
  { unfold leaderboard_of. induction data as [|[u c] data IH]; cbn.
    - split; [|done]. intros _ user cmds Hin. by apply elem_of_nil in Hin.
    - destruct (dict_get command_name c) eqn:Hc; cbn.
      + split; [discriminate|]. intros H. specialize (H u c (list_elem_of_here _ _)).
        rewrite Hc in H. discriminate H.
      + rewrite IH. split.
        * intros H user cmds Hin. apply elem_of_cons in Hin as [[= -> ->] | Hin]; [done|].
          by apply (H user cmds).
        * intros H user cmds Hin. apply (H user cmds). by apply list_elem_of_further. }
  split; [reflexivity|]. split.
  - rewrite <- Hempty. unfold leaderboard_cmd. cbn [negb].
    destruct (leaderboard_of command_name data); split; try done; discriminate.
  - split.
    + intros [rows Hrows]. apply leaderboard_cmd_rows in Hrows as (Hne & _).
      destruct (leaderboard_of command_name data) as [|row l] eqn:Hb; [done|].
      assert (Hin : row ∈ leaderboard_of command_name data) by (rewrite Hb; apply list_elem_of_here).
      unfold leaderboard_of in Hin. apply list_elem_of_omap in Hin.
      destruct Hin as ([user cmds] & Hitem & Hget). cbn in Hget.
      exists user, cmds. split; [exact Hitem|].
      destruct (dict_get command_name cmds); [by eexists | discriminate].
    + intros (user & cmds & Hin & Hsome). unfold leaderboard_cmd. cbn [negb].
      destruct (leaderboard_of command_name data) eqn:Hb; [|by eexists].
      exfalso. destruct Hempty as [Hnone _]. rewrite (Hnone eq_refl user cmds Hin) in Hsome.
      by destruct Hsome.
Qed.

(** X23. Recording and ranking fit together: once a user has completed
    a command, that user is on the board of the command with the new
    count and the time of this use, so the leaderboard of the command
    answers with rows. *)
Theorem recorded_use_is_on_the_board (user cmd_name stamp : string)
    (data : dict (dict usage)) :
  let data' := record_usage user cmd_name stamp data in
  (user, default 0 (count <$> usage_of user cmd_name data) + 1, Some stamp)%Z
    ∈ leaderboard_of cmd_name data'
  ∧ ∃ rows, leaderboard_cmd true cmd_name data' = BoardRows cmd_name rows.
Proof.
  intros data'.
  destruct (record_usage_counts_one_aux user cmd_name stamp data) as (cmds & Huser & Hcmd).
  fold data' in Huser.
  assert (Hin : (user, default 0 (count <$> usage_of user cmd_name data) + 1, Some stamp)%Z
                ∈ leaderboard_of cmd_name data').
  { unfold leaderboard_of. apply list_elem_of_omap. exists (user, cmds).
    split; [by apply dict_get_elem_of|]. cbn. by rewrite Hcmd. }
  split; [exact Hin|].
  unfold leaderboard_cmd. cbn [negb].
  destruct (leaderboard_of cmd_name data'); [by apply elem_of_nil in Hin | by eexists].
Qed.

(** ** More runs on concrete states *)

(** X1 at a concrete input: requester 7 refreshes at 1000 s, is blocked
    at 1030 s and refreshes again at 1100 s. *)
Lemma refresh_rate_limit_witness :
  let c0 := mkRefreshCall true 7 1000 NetFail None in
  let c1 := mkRefreshCall true 7 1030 NetFail None in
  let c2 := mkRefreshCall true 7 1100 (NetOk "version-abc" None 1100) None in
  let cs := [c0; c1; c2] in
  let trs := (refresh_calls (λ _, "stock") (λ _, "version") cs (startup ∅ [])).1 in
  trs = [ [NetworkFetch; Reply CouldNotFetch];
          [Reply (CooldownLeft (round1 (60 - (1030 - 1000))))];
          [NetworkFetch; Reply (VersionRefreshed "version-abc" "Unknown")] ]
  ∧ (REFRESH_COOLDOWN <= rc_now c2 - rc_now c0)%Q.
Proof.
  cbv zeta. split; [reflexivity|].
  apply (refresh_rate_limit (λ _, "stock") (λ _, "version")
           [mkRefreshCall true 7 1000 NetFail None; mkRefreshCall true 7 1030 NetFail None;
            mkRefreshCall true 7 1100 (NetOk "version-abc" None 1100) None]
           (startup ∅ []) 0 2 _ _
           [NetworkFetch; Reply CouldNotFetch]
           [NetworkFetch; Reply (VersionRefreshed "version-abc" "Unknown")]);
    try reflexivity; try lia; apply list_elem_of_here.
Defined.

(** X2 at a concrete input: after a fetch at 1000 s, a blocked retry of
    requester 7 and a fetch of requester 8 leave the entry of 7 at
    1000. *)
Lemma refresh_entry_survives_witness :
  let st := final (refresh_version (λ _, "stock") (λ _, "version") true 7 1000 NetFail None
                     (startup ∅ [])) in
  let cs := [mkRefreshCall true 7 1030 NetFail None; mkRefreshCall true 8 1040 NetFail None] in
  (∀ c, c ∈ cs → rc_uid c = 7 → rc_admin c = true → refresh_blocked st 7 (rc_now c))
  ∧ refresh_cooldowns (refresh_calls (λ _, "stock") (λ _, "version") cs st).2 !! 7
    = Some 1000%Q.
Proof.
  cbv zeta.
  set (st := final (refresh_version (λ _, "stock") (λ _, "version") true 7 1000 NetFail None
                      (startup ∅ []))).
  assert (H : ∀ c, c ∈ [mkRefreshCall true 7 1030 NetFail None;
                        mkRefreshCall true 8 1040 NetFail None] →
              rc_uid c = 7 → rc_admin c = true → refresh_blocked st 7 (rc_now c)).
  { intros c Hin Huid _.
    apply elem_of_cons in Hin as [-> | Hin]; [reflexivity|].
    apply elem_of_cons in Hin as [-> | Hin]; [discriminate Huid|].
    by apply elem_of_nil in Hin. }
  split; [exact H|].
  destruct (refresh_entry_survives (λ _, "stock") (λ _, "version") _ st 7 H) as [-> _].
  reflexivity.
Defined.

(** X6 at a concrete input: requester 1 is sent "A1" and the pool is
    left with "A2". *)
Lemma getacc_delivered_witness :
  let st := startup ∅ ["A1"; "A2"] in
  let am1 := mkAccountManager ["A2"] {[ 1 := 1000%Q ]} 300 in
  get_account 1 1000 (account_manager st) = ((Some "A1", MsgOk), am1)
  ∧ "A1" ≠ ""
  ∧ trace (get_account_cmd 1 1000 None None st) = [DirectMessage "A1"; Reply SentViaDM]
  ∧ load_accounts (account_manager (final (get_account_cmd 1 1000 None None st))) = ["A2"].
Proof.
  cbv zeta.
  assert (H1 : get_account 1 1000 (account_manager (startup ∅ ["A1"; "A2"]))
               = ((Some "A1", MsgOk), mkAccountManager ["A2"] {[ 1 := 1000%Q ]} 300))
    by reflexivity.
  assert (H2 : "A1" ≠ "") by discriminate.
  pose proof (getacc_delivered (startup ∅ ["A1"; "A2"]) 1 1000 "A1" MsgOk _ H1 H2) as H.
  cbv zeta in H. destruct H as (_ & Ha & Hb). rewrite Hb. auto.
Defined.

(** X7 at a concrete input: "A1" is sent, the acknowledgement and the
    reply after it fail, and "A1" is back in front of "A2". *)
Lemma getacc_ack_failure_restores_sent_account_witness :
  let st := startup ∅ ["A1"; "A2"] in
  let am1 := mkAccountManager ["A2"] {[ 1 := 1000%Q ]} 300 in
  let o := mkGetaccOutcomes None (Some (DiscordError 404)) Restored (Some (DiscordError 404))
             None None in
  let done := get_account_cmd_awaits 1 1000 o st in
  get_account 1 1000 (account_manager st) = ((Some "A1", MsgOk), am1)
  ∧ "A1" ≠ ""
  ∧ go_dm o = None
  ∧ go_ack o = Some (DiscordError 404)
  ∧ go_restore o = Restored
  ∧ account_manager (final done) = restore_account "A1" am1
  ∧ load_accounts (account_manager (final done)) !! 0%nat = Some "A1".
Proof.
  cbv zeta.
  assert (H1 : get_account 1 1000 (account_manager (startup ∅ ["A1"; "A2"]))
               = ((Some "A1", MsgOk), mkAccountManager ["A2"] {[ 1 := 1000%Q ]} 300))
    by reflexivity.
  assert (H2 : "A1" ≠ "") by discriminate.
  pose proof (getacc_ack_failure_restores_sent_account (startup ∅ ["A1"; "A2"]) 1 1000
                (mkGetaccOutcomes None (Some (DiscordError 404)) Restored
                   (Some (DiscordError 404)) None None)
                (DiscordError 404) "A1" MsgOk _ H1 H2 eq_refl eq_refl eq_refl) as H.
  cbv zeta in H. destruct H as (_ & _ & Ha & _ & Hb & _). auto 10.
Defined.

(** X8 at a concrete input: an empty string at the front of the pool is
    taken by the manager and relayed as a refusal; it is gone. *)
Lemma getacc_refused_witness :
  let st := startup ∅ [""; "A2"] in
  let am1 := mkAccountManager ["A2"] {[ 1 := 1000%Q ]} 300 in
  get_account 1 1000 (account_manager st) = ((Some "", MsgOk), am1)
  ∧ (Some "" = None ∨ Some "" = Some "")
  ∧ get_account_cmd 1 1000 None None st
    = (Returned tt, set_account_manager am1 st, [Reply (Refusal MsgOk)]).
Proof.
  cbv zeta.
  assert (H1 : get_account 1 1000 (account_manager (startup ∅ [""; "A2"]))
               = ((Some "", MsgOk), mkAccountManager ["A2"] {[ 1 := 1000%Q ]} 300))
    by reflexivity.
  assert (H2 : Some "" = None ∨ Some "" = Some "") by (right; reflexivity).
  split; [exact H1|]. split; [exact H2|].
  exact (getacc_refused (startup ∅ [""; "A2"]) 1 1000 None None _ MsgOk _ H1 H2).
Defined.

(** A board with a tie: bob leads with 5, ann and cy follow with 2 each
    in the order of the analytics. *)
Example scenario_leaderboard :
  leaderboard_cmd true "getacc"
    [ ("ann", [("getacc", mkUsage 2 (Some "2025-01-01 10:00:00")); ("stock", mkUsage 9 None)]);
      ("bob", [("getacc", mkUsage 5 (Some "2025-01-02 10:00:00"))]);
      ("dan", [("stock", mkUsage 7 None)]);
      ("cy", [("getacc", mkUsage 2 None)]) ]
  = BoardRows "getacc"
      [ (1%nat, ("bob", 5, Some "2025-01-02 10:00:00"));
        (2%nat, ("ann", 2, Some "2025-01-01 10:00:00"));
        (3%nat, ("cy", 2, None)) ].
Proof. reflexivity. Qed.

(** X19 at a concrete input. *)
Lemma leaderboard_shape_witness :
  let data := [ ("ann", [("getacc", mkUsage 2 None)]); ("bob", [("getacc", mkUsage 5 None)]) ] in
  let rows := [ (1%nat, ("bob", 5%Z, @None string)); (2%nat, ("ann", 2%Z, @None string)) ] in
  leaderboard_cmd true "getacc" data = BoardRows "getacc" rows
  ∧ length rows = 2%nat
  ∧ StronglySorted descending rows.*2.
Proof.
  cbv zeta.
  assert (H1 : leaderboard_cmd true "getacc"
                 [ ("ann", [("getacc", mkUsage 2 None)]); ("bob", [("getacc", mkUsage 5 None)]) ]
               = BoardRows "getacc"
                   [ (1%nat, ("bob", 5%Z, @None string)); (2%nat, ("ann", 2%Z, @None string)) ])
    by reflexivity.
  split; [exact H1|].
  destruct (leaderboard_shape _ _ _ H1) as (Ha & _ & _ & Hb). split; [exact Ha | exact Hb].
Defined.

(** X20 at a concrete input. *)
Lemma leaderboard_top_witness :
  let data := [ ("ann", [("getacc", mkUsage 2 None)]); ("bob", [("getacc", mkUsage 5 None)]) ] in
  let rows := [ (1%nat, ("bob", 5%Z, @None string)); (2%nat, ("ann", 2%Z, @None string)) ] in
  leaderboard_cmd true "getacc" data = BoardRows "getacc" rows
  ∧ rows.*2 ≡ₚ leaderboard_of "getacc" data.
Proof.
  cbv zeta.
  assert (H1 : leaderboard_cmd true "getacc"
                 [ ("ann", [("getacc", mkUsage 2 None)]); ("bob", [("getacc", mkUsage 5 None)]) ]
               = BoardRows "getacc"
                   [ (1%nat, ("bob", 5%Z, @None string)); (2%nat, ("ann", 2%Z, @None string)) ])
    by reflexivity.
  split; [exact H1|].
  destruct (leaderboard_top _ _ _ H1) as (_ & _ & Ha). apply Ha. cbn. lia.
Defined.

(** X21 at a concrete input: ann and cy both have 2, ann comes first. *)
Lemma leaderboard_ties_keep_order_witness :
  let data := [ ("ann", [("getacc", mkUsage 2 None)]); ("bob", [("getacc", mkUsage 5 None)]);
                ("cy", [("getacc", mkUsage 2 None)]) ] in
  let rows := [ (1%nat, ("bob", 5%Z, @None string)); (2%nat, ("ann", 2%Z, @None string));
                (3%nat, ("cy", 2%Z, @None string)) ] in
  leaderboard_cmd true "getacc" data = BoardRows "getacc" rows
  ∧ filter (λ r : board_row, r.1.2 = 2%Z) rows.*2
    `prefix_of` filter (λ r : board_row, r.1.2 = 2%Z) (leaderboard_of "getacc" data).
Proof.
  cbv zeta.
  assert (H1 : leaderboard_cmd true "getacc"
                 [ ("ann", [("getacc", mkUsage 2 None)]); ("bob", [("getacc", mkUsage 5 None)]);
                   ("cy", [("getacc", mkUsage 2 None)]) ]
               = BoardRows "getacc"
                   [ (1%nat, ("bob", 5%Z, @None string)); (2%nat, ("ann", 2%Z, @None string));
                     (3%nat, ("cy", 2%Z, @None string)) ])
    by reflexivity.
  split; [exact H1|].
  exact (leaderboard_ties_keep_order _ _ _ 2%Z H1).
Defined.

(** Two users, three commands, the last save failing before it touches
    the file: the counts are there all the same, and the file is one
    command behind. *)
Example scenario_completions :
  let before := [ ("ann", [("getacc", mkUsage 1 (Some "2025-01-01 10:00:00"))]);
                  ("bob", [("stock", mkUsage 1 (Some "2025-01-01 10:01:00"))]) ] in
  let cs := [ mkCompletion None Saved "ann" "getacc" "2025-01-01 10:00:00" [];
              mkCompletion None Saved "bob" "stock" "2025-01-01 10:01:00" [];
              mkCompletion None (SaveFailed (DiscordError 0) (Some before))
                "ann" "getacc" "2025-01-01 10:02:00" [] ] in
  let st := completions ∅ false cs (mkAnalytics (load_analytics None) None) in
  analytics_data st
  = [ ("ann", [("getacc", mkUsage 2 (Some "2025-01-01 10:02:00"))]);
      ("bob", [("stock", mkUsage 1 (Some "2025-01-01 10:01:00"))]) ]
  ∧ analytics_file st
    = Some [ ("ann", [("getacc", mkUsage 1 (Some "2025-01-01 10:00:00"))]);
             ("bob", [("stock", mkUsage 1 (Some "2025-01-01 10:01:00"))]) ].
Proof. split; reflexivity. Qed.

(** The parameters in the usage log: the hidden one is left out. *)
Example scenario_params :
  render_params [("_state", "x"); ("command_name", "getacc"); ("limit", "5")]
  = "command_name=getacc, limit=5".
Proof. reflexivity. Qed.
